(** * Requirements dashboard: a shallow embedding of [Dashboard.js]

    The React component [Dashboard] of [src/frontend/src/pages/Dashboard.js]
    is embedded as a state machine: the component's [useState] cells form a
    record, every event handler is a function on that record, and the
    debounced [useEffect] that fetches the requirement list is modelled with
    an explicit clock, the pending [setTimeout] closure and the set of
    requests that were issued and have not settled yet.

    JavaScript values are modelled as follows.
    - Strings are [string]; the component only handles them through
      [includes], [replace], [split] and [join], which are defined here on
      characters.
    - Numbers ([estimated_time], [hourly_rate]) are [JsNum]: [NaN], the two
      infinities, or a finite value held as an exact rational, so finite
      arithmetic is exact where IEEE doubles would round.
    - Page numbers and project ids are integers ([Z]); [null] and an absent
      field are [None]. *)

From Stdlib Require Import ZArith QArith Qabs Qround Lia Bool List.
From Stdlib Require Import Ascii String DecimalString.
Import ListNotations.

Local Open Scope string_scope.
Local Open Scope Z_scope.

(** ** JavaScript primitives used by the component *)

Module JS.

(** The double quote and the line feed, as one-character strings. *)
Definition dquote : string := String (ascii_of_nat 34) EmptyString.
Definition nl : string := String (ascii_of_nat 10) EmptyString.

(** [hay.includes(needle)]. *)
Fixpoint includes (hay needle : string) : bool :=
  match hay with
  | EmptyString => String.prefix needle EmptyString
  | String _ rest => String.prefix needle hay || includes rest needle
  end.

(** [s.replace] of the regular expression matching one double quote,
    globally, by two double quotes: every double quote is doubled. *)
Fixpoint replace_dquotes (s : string) : string :=
  match s with
  | EmptyString => EmptyString
  | String c rest =>
      if Ascii.eqb c (ascii_of_nat 34)
      then String c (String c (replace_dquotes rest))
      else String c (replace_dquotes rest)
  end.

(** The character class [[a-z0-9]] under the [i] flag. *)
Definition is_alnum (c : ascii) : bool :=
  let n := nat_of_ascii c in
  ((48 <=? n) && (n <=? 57) || (65 <=? n) && (n <=? 90)
   || (97 <=? n) && (n <=? 122))%nat.

(** [s.replace(/[^a-z0-9]/gi, '_')]. *)
Fixpoint replace_non_alnum (s : string) : string :=
  match s with
  | EmptyString => EmptyString
  | String c rest =>
      String (if is_alnum c then c else "_"%char) (replace_non_alnum rest)
  end.

(** [s.split(sep)[0]] for a one-character separator: the text before the
    first occurrence of [sep], or all of [s] when there is none. *)
Fixpoint before_first (sep : ascii) (s : string) : string :=
  match s with
  | EmptyString => EmptyString
  | String c rest =>
      if Ascii.eqb c sep then EmptyString else String c (before_first sep rest)
  end.

(** [rows.join(sep)] on strings. *)
Definition join (sep : string) (parts : list string) : string :=
  String.concat sep parts.

(** [a || b] on strings: the empty string and an absent value are falsy. *)
Definition str_or (a : option string) (b : string) : string :=
  match a with
  | Some s => if String.eqb s EmptyString then b else s
  | None => b
  end.

(** [a || b] on integers: zero and an absent value are falsy. *)
Definition int_or (a : option Z) (b : Z) : Z :=
  match a with
  | Some n => if n =? 0 then b else n
  | None => b
  end.

(** *** Numbers *)

Inductive JsNum : Type :=
| NaN : JsNum
| Inf (negative : bool) : JsNum
| Fin (q : Q) : JsNum.

Definition num (z : Z) : JsNum := Fin (inject_Z z).

Definition Qsign (q : Q) : Z := Z.sgn (Qnum q).

(** [a + b]. *)
Definition add (a b : JsNum) : JsNum :=
  match a, b with
  | NaN, _ | _, NaN => NaN
  | Inf s, Inf t => if Bool.eqb s t then Inf s else NaN
  | Inf s, Fin _ | Fin _, Inf s => Inf s
  | Fin p, Fin q => Fin (Qred (p + q))
  end.

(** [a * b]. *)
Definition mul (a b : JsNum) : JsNum :=
  match a, b with
  | NaN, _ | _, NaN => NaN
  | Inf s, Inf t => Inf (xorb s t)
  | Inf s, Fin q | Fin q, Inf s =>
      match Qsign q with
      | 0 => NaN
      | Zpos _ => Inf s
      | Zneg _ => Inf (negb s)
      end
  | Fin p, Fin q => Fin (Qred (p * q))
  end.

(** Truthiness of a number: [0] and [NaN] are falsy. *)
Definition truthy (a : JsNum) : bool :=
  match a with
  | NaN => false
  | Inf _ => true
  | Fin q => negb (Qsign q =? 0)
  end.

(** [a || b] on numbers. *)
Definition num_or (a b : JsNum) : JsNum := if truthy a then a else b.

(** [a < 0]. *)
Definition is_negative (a : JsNum) : bool :=
  match a with
  | NaN => false
  | Inf s => s
  | Fin q => Qsign q <? 0
  end.

(** Decimal digits of a non-negative integer. *)
Definition digits (n : Z) : string :=
  NilZero.string_of_uint (N.to_uint (Z.to_N n)).

(** Decimal expansion of the fraction [r / d] with [0 <= r < d], at most
    [fuel] places, stopping at the last non-zero place. *)
Fixpoint frac_digits (fuel : nat) (r d : Z) : string :=
  match fuel with
  | O => EmptyString
  | S fuel' =>
      if r =? 0 then EmptyString
      else digits (10 * r / d) ++ frac_digits fuel' (10 * r mod d) d
  end.

(** [String(a)] for the numbers the dashboard prints: integers in full,
    other finite values by their decimal expansion (twenty places at
    most). Exponent notation, which JavaScript uses from [1e21] on and
    below [1e-6], is not modelled. *)
Definition toString (a : JsNum) : string :=
  match a with
  | NaN => "NaN"
  | Inf false => "Infinity"
  | Inf true => "-Infinity"
  | Fin q =>
      let q := Qred q in
      let sign := if Qsign q <? 0 then "-" else "" in
      let n := Z.abs (Qnum q) in
      let d := Zpos (Qden q) in
      let frac := frac_digits 20 (n mod d) d in
      sign ++ digits (n / d)
           ++ (if String.eqb frac EmptyString then "" else "." ++ frac)
  end.

(** Left padding with ["0"] up to [width] characters. *)
Definition pad0 (width : nat) (s : string) : string :=
  String.concat "" (repeat "0" (width - String.length s)) ++ s.

(** [a.toFixed(2)], following Number.prototype.toFixed: the sign is split
    off, the magnitude is scaled by [100] and rounded to the nearest
    integer (the larger one on a tie), and the decimal point is put before
    the last two digits. *)
Definition toFixed2 (a : JsNum) : string :=
  match a with
  | NaN => "NaN"
  | Fin q =>
      let sign := if Qsign q <? 0 then "-" else "" in
      let x := Qabs q in
      if Qle_bool (inject_Z (10 ^ 21)) x then toString a
      else
        let n := Qfloor (x * inject_Z 100 + (1 # 2)) in
        let m := pad0 3 (digits n) in
        let k := String.length m in
        sign ++ substring 0 (k - 2) m ++ "." ++ substring (k - 2) 2 m
  | _ => toString a
  end.

(** *** Dates *)

(** Days since 1970-01-01 of a proleptic Gregorian date. *)
Definition days_from_civil (y m d : Z) : Z :=
  let y' := if m <=? 2 then y - 1 else y in
  let era := y' / 400 in
  let yoe := y' - era * 400 in
  let doy := (153 * (if 2 <? m then m - 3 else m + 9) + 2) / 5 + d - 1 in
  let doe := yoe * 365 + yoe / 4 - yoe / 100 + doy in
  era * 146097 + doe - 719468.

(** The inverse: year, month and day of a day number. *)
Definition civil_from_days (z : Z) : Z * Z * Z :=
  let z := z + 719468 in
  let era := z / 146097 in
  let doe := z - era * 146097 in
  let yoe := (doe - doe / 1460 + doe / 36524 - doe / 146096) / 365 in
  let doy := doe - (365 * yoe + yoe / 4 - yoe / 100) in
  let mp := (5 * doy + 2) / 153 in
  let d := doy - (153 * mp + 2) / 5 + 1 in
  let m := if mp <? 10 then mp + 3 else mp - 9 in
  (yoe + era * 400 + (if m <=? 2 then 1 else 0), m, d).

Definition is_leap (y : Z) : bool :=
  (y mod 4 =? 0) && (negb (y mod 100 =? 0) || (y mod 400 =? 0)).

Definition days_in_month (y m : Z) : Z :=
  if m =? 2 then (if is_leap y then 29 else 28)
  else if (m =? 4) || (m =? 6) || (m =? 9) || (m =? 11) then 30 else 31.

Definition digit_val (c : ascii) : option Z :=
  let n := nat_of_ascii c in
  if ((48 <=? n) && (n <=? 57))%nat then Some (Z.of_nat n - 48) else None.

(** The value of a string that consists of decimal digits only. *)
Fixpoint digits_val (acc : Z) (s : string) : option Z :=
  match s with
  | EmptyString => Some acc
  | String c rest =>
      match digit_val c with
      | Some v => digits_val (10 * acc + v) rest
      | None => None
      end
  end.

(** A field of exactly [len] digits starting at [pos]. *)
Definition field (pos len : nat) (s : string) : option Z :=
  let f := substring pos len s in
  if (String.length f =? len)%nat then digits_val 0 f else None.

Definition in_range (lo hi v : Z) : bool := (lo <=? v) && (v <=? hi).

(** A time value: milliseconds since the epoch, or [None] for the [NaN] of
    an invalid date. *)
Definition TimeValue : Type := option Z.

(** [new Date(s)] for the ISO 8601 strings an API serialises dates to:
    the date-only form [YYYY-MM-DD], read as UTC midnight, and the UTC
    forms [YYYY-MM-DDTHH:mm:ssZ] and [YYYY-MM-DDTHH:mm:ss.sssZ]. Element
    values out of range give an invalid date. Any other spelling is
    outside this model and read as invalid. *)
Definition Date_parse (s : string) : TimeValue :=
  let sep p c := String.eqb (substring p 1 s) c in
  match field 0%nat 4%nat s, field 5%nat 2%nat s, field 8%nat 2%nat s with
  | Some y, Some m, Some d =>
      if sep 4%nat "-" && sep 7%nat "-" && in_range 1 12 m
         && in_range 1 (days_in_month y m) d
      then
        let day := days_from_civil y m d in
        let len := String.length s in
        if (len =? 10)%nat then Some (day * 86400000)
        else
          match field 11%nat 2%nat s, field 14%nat 2%nat s,
                field 17%nat 2%nat s with
          | Some hh, Some mi, Some ss =>
              if sep 10%nat "T" && sep 13%nat ":" && sep 16%nat ":"
                 && in_range 0 23 hh && in_range 0 59 mi && in_range 0 59 ss
              then
                let t := day * 86400000 + hh * 3600000 + mi * 60000
                         + ss * 1000 in
                if (len =? 20)%nat && sep 19%nat "Z" then Some t
                else
                  match field 20%nat 3%nat s with
                  | Some ms =>
                      if (len =? 24)%nat && sep 19%nat "." && sep 23%nat "Z"
                      then Some (t + ms) else None
                  | None => None
                  end
              else None
          | _, _, _ => None
          end
      else None
  | _, _, _ => None
  end.

(** [date.toISOString()] for the years [0000] to [9999]; an invalid date
    throws a RangeError, which is [None] here. *)
Definition toISOString (t : TimeValue) : option string :=
  match t with
  | None => None
  | Some ms =>
      let day := ms / 86400000 in
      let rest := ms mod 86400000 in
      let '(y, m, d) := civil_from_days day in
      let p w v := pad0 w (digits v) in
      Some (p 4%nat y ++ "-" ++ p 2%nat m ++ "-" ++ p 2%nat d ++ "T"
            ++ p 2%nat (rest / 3600000) ++ ":"
            ++ p 2%nat (rest mod 3600000 / 60000) ++ ":"
            ++ p 2%nat (rest mod 60000 / 1000) ++ "."
            ++ p 3%nat (rest mod 1000) ++ "Z")
  end.

(** The value of the longest run of digits at the start of [s]; [None]
    when there is no digit. *)
Fixpoint digit_run (acc : option Z) (s : string) : option Z :=
  match s with
  | EmptyString => acc
  | String c rest =>
      match digit_val c with
      | Some v =>
          digit_run (Some (10 * match acc with Some a => a | None => 0 end + v))
                    rest
      | None => acc
      end
  end.

Fixpoint skip_spaces (s : string) : string :=
  match s with
  | String c rest =>
      if (Ascii.eqb c " "%char) || (Ascii.eqb c (ascii_of_nat 9))
         || (Ascii.eqb c (ascii_of_nat 10)) || (Ascii.eqb c (ascii_of_nat 13))
      then skip_spaces rest else s
  | EmptyString => s
  end.

(** [parseInt(s, 10)]: leading white space, an optional sign and the
    longest run of digits after it; [None] is [NaN]. *)
Definition parseInt10 (s : string) : option Z :=
  match skip_spaces s with
  | String "-"%char rest => option_map Z.opp (digit_run None rest)
  | String "+"%char rest => digit_run None rest
  | s' => digit_run None s'
  end.

End JS.

Import JS.

(** ** Data model *)

(** A project as served by [GET /api/projects]. *)
Record Project : Type := {
  proj_id : Z;
  proj_name : string;
  hourly_rate : JsNum }.

(** A requirement as served by [GET /api/requirements]; only the fields
    the component reads. *)
Record Requirement : Type := {
  req_id : string;
  requirement : string;
  status : string;
  priority : string;
  complexity : string;
  author : string;
  date : string;
  estimated_time : JsNum }.

Record StatsSummary : Type := {
  total : nat;
  approved : nat;
  inReview : nat;
  disapproved : nat }.

Record CostSummary : Type := {
  totalHours : JsNum;
  totalCost : JsNum }.

Record Pagination : Type := {
  page : Z;
  pages : Z;
  pg_total : Z }.

(** The [filters] object; its four keys are the filter types. *)
Record Filters : Type := {
  f_type : list string;
  f_status : list string;
  f_complexity : list string;
  f_priority : list string }.

Inductive FilterType : Type := FType | FStatus | FComplexity | FPriority.

Record JiraSettings : Type := {
  isConnected : bool;
  projectKey : string }.

(** The [useState] cells of the component. [selectedProject] is [None] for
    [null]. *)
Record Dashboard : Type := {
  requirements : list Requirement;
  overallStats : StatsSummary;
  filteredStats : StatsSummary;
  searchQuery : string;
  filters : Filters;
  loading : bool;
  error : string;
  pagination : Pagination;
  selectedProject : option Z;
  projects : list Project;
  jiraSettings : JiraSettings;
  isJiraModalOpen : bool }.

Definition noStats : StatsSummary :=
  {| total := 0; approved := 0; inReview := 0; disapproved := 0 |}.

Definition noFilters : Filters :=
  {| f_type := []; f_status := []; f_complexity := []; f_priority := [] |}.

(** The initial values given to [useState]. *)
Definition initial : Dashboard := {|
  requirements := [];
  overallStats := noStats;
  filteredStats := noStats;
  searchQuery := "";
  filters := noFilters;
  loading := false;
  error := "";
  pagination := {| page := 1; pages := 1; pg_total := 0 |};
  selectedProject := None;
  projects := [];
  jiraSettings := {| isConnected := false; projectKey := "" |};
  isJiraModalOpen := false |}.

(** The state setters. *)
Definition setRequirements (v : list Requirement) (s : Dashboard) : Dashboard :=
  {| requirements := v; overallStats := overallStats s;
     filteredStats := filteredStats s; searchQuery := searchQuery s;
     filters := filters s; loading := loading s; error := error s;
     pagination := pagination s; selectedProject := selectedProject s;
     projects := projects s; jiraSettings := jiraSettings s;
     isJiraModalOpen := isJiraModalOpen s |}.

Definition setOverallStats (v : StatsSummary) (s : Dashboard) : Dashboard :=
  {| requirements := requirements s; overallStats := v;
     filteredStats := filteredStats s; searchQuery := searchQuery s;
     filters := filters s; loading := loading s; error := error s;
     pagination := pagination s; selectedProject := selectedProject s;
     projects := projects s; jiraSettings := jiraSettings s;
     isJiraModalOpen := isJiraModalOpen s |}.

Definition setFilteredStats (v : StatsSummary) (s : Dashboard) : Dashboard :=
  {| requirements := requirements s; overallStats := overallStats s;
     filteredStats := v; searchQuery := searchQuery s;
     filters := filters s; loading := loading s; error := error s;
     pagination := pagination s; selectedProject := selectedProject s;
     projects := projects s; jiraSettings := jiraSettings s;
     isJiraModalOpen := isJiraModalOpen s |}.

Definition setSearchQuery (v : string) (s : Dashboard) : Dashboard :=
  {| requirements := requirements s; overallStats := overallStats s;
     filteredStats := filteredStats s; searchQuery := v;
     filters := filters s; loading := loading s; error := error s;
     pagination := pagination s; selectedProject := selectedProject s;
     projects := projects s; jiraSettings := jiraSettings s;
     isJiraModalOpen := isJiraModalOpen s |}.

Definition setFilters (v : Filters) (s : Dashboard) : Dashboard :=
  {| requirements := requirements s; overallStats := overallStats s;
     filteredStats := filteredStats s; searchQuery := searchQuery s;
     filters := v; loading := loading s; error := error s;
     pagination := pagination s; selectedProject := selectedProject s;
     projects := projects s; jiraSettings := jiraSettings s;
     isJiraModalOpen := isJiraModalOpen s |}.

Definition setLoading (v : bool) (s : Dashboard) : Dashboard :=
  {| requirements := requirements s; overallStats := overallStats s;
     filteredStats := filteredStats s; searchQuery := searchQuery s;
     filters := filters s; loading := v; error := error s;
     pagination := pagination s; selectedProject := selectedProject s;
     projects := projects s; jiraSettings := jiraSettings s;
     isJiraModalOpen := isJiraModalOpen s |}.

Definition setError (v : string) (s : Dashboard) : Dashboard :=
  {| requirements := requirements s; overallStats := overallStats s;
     filteredStats := filteredStats s; searchQuery := searchQuery s;
     filters := filters s; loading := loading s; error := v;
     pagination := pagination s; selectedProject := selectedProject s;
     projects := projects s; jiraSettings := jiraSettings s;
     isJiraModalOpen := isJiraModalOpen s |}.

Definition setPagination (v : Pagination) (s : Dashboard) : Dashboard :=
  {| requirements := requirements s; overallStats := overallStats s;
     filteredStats := filteredStats s; searchQuery := searchQuery s;
     filters := filters s; loading := loading s; error := error s;
     pagination := v; selectedProject := selectedProject s;
     projects := projects s; jiraSettings := jiraSettings s;
     isJiraModalOpen := isJiraModalOpen s |}.

Definition setSelectedProject (v : option Z) (s : Dashboard) : Dashboard :=
  {| requirements := requirements s; overallStats := overallStats s;
     filteredStats := filteredStats s; searchQuery := searchQuery s;
     filters := filters s; loading := loading s; error := error s;
     pagination := pagination s; selectedProject := v;
     projects := projects s; jiraSettings := jiraSettings s;
     isJiraModalOpen := isJiraModalOpen s |}.

Definition setProjects (v : list Project) (s : Dashboard) : Dashboard :=
  {| requirements := requirements s; overallStats := overallStats s;
     filteredStats := filteredStats s; searchQuery := searchQuery s;
     filters := filters s; loading := loading s; error := error s;
     pagination := pagination s; selectedProject := selectedProject s;
     projects := v; jiraSettings := jiraSettings s;
     isJiraModalOpen := isJiraModalOpen s |}.

(** ** Values derived on every render *)

(** [projects.find(p => p.id === selectedProject)]. *)
Definition selectedProjectData (s : Dashboard) : option Project :=
  match selectedProject s with
  | Some sel => find (fun p => proj_id p =? sel) (projects s)
  | None => None
  end.

(** [selectedProjectData?.hourly_rate || 0]. *)
Definition hourlyRate (s : Dashboard) : JsNum :=
  match selectedProjectData s with
  | Some p => num_or (hourly_rate p) (num 0)
  | None => num 0
  end.

(** [Number.isInteger(id) && id > 0]; [None] stands for [null] and for the
    [NaN] of a failed [parseInt]. *)
Definition isValidProjectId (id : option Z) : bool :=
  match id with
  | Some n => 0 <? n
  | None => false
  end.

(** [calculateCosts], with the [hourlyRate] it closes over made explicit. *)
Definition calculateCosts (hourlyRate : JsNum) (reqs : list Requirement)
  : CostSummary :=
  let totalHours :=
    fold_left (fun sum req => add sum (num_or (estimated_time req) (num 0)))
              reqs (num 0) in
  {| totalHours := totalHours; totalCost := mul totalHours hourlyRate |}.

Definition currentCosts (s : Dashboard) : CostSummary :=
  calculateCosts (hourlyRate s) (requirements s).

Definition overallCosts (s : Dashboard) : CostSummary :=
  calculateCosts (hourlyRate s) (requirements s).

(** The cost shown on a [RequirementCard]:
    [(requirement.estimated_time || 0) * hourlyRate]. *)
Definition cardCost (hourlyRate : JsNum) (req : Requirement) : JsNum :=
  mul (num_or (estimated_time req) (num 0)) hourlyRate.

(** The cost of a row of the export: [req.estimated_time * hourlyRate]. *)
Definition rowCost (hourlyRate : JsNum) (req : Requirement) : JsNum :=
  mul (estimated_time req) hourlyRate.

(** ** Stats aggregation *)

(** [reqs.filter(r => r.status === st).length]. *)
Definition countStatus (st : string) (reqs : list Requirement) : nat :=
  List.length (filter (fun r => String.eqb (status r) st) reqs).

(** [newFilteredStats] of [fetchRequirements]. *)
Definition newFilteredStats (filteredRequirements : list Requirement)
  : StatsSummary :=
  {| total := List.length filteredRequirements;
     approved := countStatus "Approved" filteredRequirements;
     inReview := countStatus "Review" filteredRequirements;
     disapproved := countStatus "Disapproved" filteredRequirements |}.

(** The props handed to a [StatSection]. *)
Record StatSectionProps : Type := {
  title : string;
  stats : StatsSummary;
  costs : CostSummary;
  rate : JsNum }.

(** The two [StatSection] elements of the render, present only while a
    valid project is selected. *)
Definition statSections (s : Dashboard) : list StatSectionProps :=
  if isValidProjectId (selectedProject s) then
    [ {| title := "Overall Statistics"; stats := overallStats s;
         costs := overallCosts s; rate := hourlyRate s |};
      {| title := "Filtered Statistics"; stats := filteredStats s;
         costs := currentCosts s; rate := hourlyRate s |} ]
  else [].

(** ** Query state *)

Definition getFilter (ft : FilterType) (f : Filters) : list string :=
  match ft with
  | FType => f_type f
  | FStatus => f_status f
  | FComplexity => f_complexity f
  | FPriority => f_priority f
  end.

Definition putFilter (ft : FilterType) (v : list string) (f : Filters)
  : Filters :=
  match ft with
  | FType => {| f_type := v; f_status := f_status f;
                f_complexity := f_complexity f; f_priority := f_priority f |}
  | FStatus => {| f_type := f_type f; f_status := v;
                  f_complexity := f_complexity f; f_priority := f_priority f |}
  | FComplexity => {| f_type := f_type f; f_status := f_status f;
                      f_complexity := v; f_priority := f_priority f |}
  | FPriority => {| f_type := f_type f; f_status := f_status f;
                    f_complexity := f_complexity f; f_priority := v |}
  end.

(** The checkboxes a [FilterGroup] offers. *)
Definition filterOptions (ft : FilterType) : list string :=
  match ft with
  | FType => ["Functional"; "Non-Functional"; "UI"; "Security"; "Performance"]
  | FStatus => ["Draft"; "Review"; "Approved"; "Disapproved"]
  | FComplexity => ["Low"; "Moderate"; "High"]
  | FPriority => ["Low"; "Medium"; "High"]
  end.

(** [arr.includes(value)] on an array of strings. *)
Definition arrIncludes (arr : list string) (value : string) : bool :=
  existsb (String.eqb value) arr.

(** The updater given to [setFilters] by [handleFilterChange]. *)
Definition toggleFilter (filterType : FilterType) (value : string)
  (prev : Filters) : Filters :=
  putFilter filterType
    (if arrIncludes (getFilter filterType prev) value
     then filter (fun f => negb (String.eqb f value))
                 (getFilter filterType prev)
     else getFilter filterType prev ++ [value])
    prev.

(** [prev => ({ ...prev, page: p })]. *)
Definition withPage (p : Z) (prev : Pagination) : Pagination :=
  {| page := p; pages := pages prev; pg_total := pg_total prev |}.

Definition handleFilterChange (filterType : FilterType) (value : string)
  (s : Dashboard) : Dashboard :=
  let s := setFilters (toggleFilter filterType value (filters s)) s in
  setPagination (withPage 1 (pagination s)) s.

(** [handleProjectChange], on the value of the chosen option. *)
Definition handleProjectChange (value : string) (s : Dashboard) : Dashboard :=
  let projectId :=
    if String.eqb value EmptyString then None else parseInt10 value in
  setSelectedProject (if isValidProjectId projectId then projectId else None) s.

(** The [onChange] of the search box. *)
Definition handleSearchChange (value : string) (s : Dashboard) : Dashboard :=
  setSearchQuery value s.

(** The [Previous] and [Next] buttons of [PaginationControls]. *)
Definition previousPage (s : Dashboard) : Dashboard :=
  setPagination (withPage (page (pagination s) - 1) (pagination s)) s.

Definition nextPage (s : Dashboard) : Dashboard :=
  setPagination (withPage (page (pagination s) + 1) (pagination s)) s.

(** ** Export *)

(** What a click on [Export CSV] leads to: nothing, a download, or the
    RangeError that [toISOString] throws on an invalid date. *)
Inductive ExportOutcome : Type :=
| NoExport : ExportOutcome
| Download (filename content : string) : ExportOutcome
| ExportThrows : ExportOutcome.

(** The row of one requirement; [None] when its date is invalid. *)
Definition exportRow (hourlyRate : JsNum) (req : Requirement)
  : option (list string) :=
  let cost := rowCost hourlyRate req in
  match toISOString (Date_parse (date req)) with
  | Some iso =>
      Some [ req_id req;
             dquote ++ replace_dquotes (requirement req) ++ dquote;
             status req;
             priority req;
             complexity req;
             author req;
             before_first "T"%char iso;
             toString (estimated_time req);
             "$" ++ toFixed2 cost;
             "$" ++ toFixed2 hourlyRate ]
  | None => None
  end.

(** [requirements.map(...)], which stops at the first row that throws. *)
Fixpoint exportRows (hourlyRate : JsNum) (reqs : list Requirement)
  : option (list (list string)) :=
  match reqs with
  | [] => Some []
  | req :: rest =>
      match exportRow hourlyRate req with
      | Some row =>
          match exportRows hourlyRate rest with
          | Some rows => Some (row :: rows)
          | None => None
          end
      | None => None
      end
  end.

Definition exportData (s : Dashboard) : ExportOutcome :=
  match selectedProjectData s with
  | None => NoExport
  | Some project =>
      let totalHours :=
        fold_left (fun sum req => add sum (num_or (estimated_time req) (num 0)))
                  (requirements s) (num 0) in
      let totalCost := mul totalHours (hourlyRate s) in
      match exportRows (hourlyRate s) (requirements s) with
      | None => ExportThrows
      | Some rows =>
          let csvContent :=
            join nl (map (join ",")
              ([ ["Project Name"; proj_name project];
                 ["Hourly Rate"; "$" ++ toFixed2 (hourlyRate s)];
                 [];
                 ["ID"; "Requirement"; "Status"; "Priority"; "Complexity";
                  "Author"; "Date"; "Hours"; "Cost"; "Cost/Hour"] ]
               ++ rows
               ++ [ [];
                    ["Total Hours"; toString totalHours];
                    ["Total Cost"; "$" ++ toFixed2 totalCost] ])) in
          let projectName := replace_non_alnum (proj_name project) in
          Download ("requirements_" ++ projectName ++ "_export.csv") csvContent
      end
  end.

(** The [disabled] attribute of the export button. *)
Definition exportDisabled (s : Dashboard) : bool :=
  (List.length (requirements s) =? 0)%nat || loading s.

(** A click on the export button: a disabled button ignores it. *)
Definition clickExport (s : Dashboard) : ExportOutcome :=
  if exportDisabled s then NoExport else exportData s.

(** ** Push to Jira *)

(** How [axios.post] settles: it resolves with [response.data], or it
    rejects with an error that has a [message] and may carry the server's
    [response.data.error]. *)
Inductive PushData : Type :=
| PushSuccess (key url : string) : PushData
| PushFailure (error : option string) : PushData.

Inductive PushResult : Type :=
| PushResolved (data : PushData) : PushResult
| PushRejected (responseError : option string) (message : string) : PushResult.

(** The error-classification pass of the [catch] block, on the raw text
    [error.response?.data?.error || error.message]. *)
Definition classifyError (raw : string) : string :=
  let errorMessage := raw in
  let errorMessage :=
    if includes errorMessage "Unauthorized"
    then errorMessage ++ nl ++ nl ++ "Please reconnect Jira integration"
    else errorMessage in
  let errorMessage :=
    if includes errorMessage "projectKey"
    then errorMessage ++ nl ++ nl ++ "Verify project key exists in Jira"
    else errorMessage in
  let errorMessage :=
    if includes errorMessage "issuetype"
    then errorMessage ++ nl ++ nl ++ "Check project has valid issue types"
    else errorMessage in
  errorMessage.

(** [pushToJira], from the settled request to the text of the alert it
    ends with. A response without [success] is thrown as
    [new Error(response.data.error || 'Unknown error')] and caught by the
    same [catch] block as a rejection, whose raw text is
    [error.response?.data?.error || error.message]. *)
Definition pushToJira (r : PushResult) : string :=
  let failed raw := "Jira push failed!" ++ nl ++ nl ++ classifyError raw in
  match r with
  | PushResolved (PushSuccess key url) =>
      "Created Jira issue: " ++ key ++ nl ++ url
  | PushResolved (PushFailure error) =>
      failed (str_or None (str_or error "Unknown error"))
  | PushRejected responseError message =>
      failed (str_or responseError message)
  end.

(** ** The list fetch *)

(** The [params] of the list request: [project], [search], the spread
    [filters] and [page] ([stats] is always [true]). *)
Record Query : Type := {
  q_project : option Z;
  q_search : string;
  q_filters : Filters;
  q_page : Z }.

Definition queryOf (s : Dashboard) : Query :=
  {| q_project := selectedProject s;
     q_search := searchQuery s;
     q_filters := filters s;
     q_page := page (pagination s) |}.

(** [response.data] of the list request; an absent field is [None]. *)
Record ListData : Type := {
  d_requirements : option (list Requirement);
  d_page : option Z;
  d_pages : option Z;
  d_total : option Z }.

(** How the list request settles; a rejection may carry the server's
    [error.response.data.error]. *)
Inductive ListResult : Type :=
| ListResolved (data : ListData) : ListResult
| ListRejected (responseError : option string) : ListResult.

(** [fetchRequirements] after the [await]: the rest of the [try] block or
    the [catch] block, then the [finally] block. *)
Definition fetchRequirementsSettled (r : ListResult) (s : Dashboard)
  : Dashboard :=
  let s :=
    match r with
    | ListResolved data =>
        let filteredRequirements :=
          match d_requirements data with Some l => l | None => [] end in
        let stats := newFilteredStats filteredRequirements in
        let s := setRequirements filteredRequirements s in
        let s := setFilteredStats stats s in
        setPagination {| page := int_or (d_page data) 1;
                         pages := int_or (d_pages data) 1;
                         pg_total := int_or (d_total data) 0 |} s
    | ListRejected responseError =>
        let s :=
          setError (str_or responseError "Failed to load requirements") s in
        setRequirements [] s
    end in
  setLoading false s.

(** ** The component in its environment *)

(** The component state together with what lives outside React: the clock
    (in milliseconds), the pending debounce timer with its deadline and the
    query its closure captured, the list requests issued so far (oldest
    first) and the positions of those that have not settled, the same for
    the stats requests, whether the project fetch is outstanding, and the
    files offered for download. *)
Record World : Type := {
  ui : Dashboard;
  clock : Z;
  debounceTimer : option (Z * Query);
  listRequests : list Query;
  listPending : list nat;
  statsRequests : list Z;
  statsPending : list nat;
  projectsPending : bool;
  downloads : list (string * string) }.

Definition setUi (v : Dashboard) (w : World) : World :=
  {| ui := v; clock := clock w; debounceTimer := debounceTimer w;
     listRequests := listRequests w; listPending := listPending w;
     statsRequests := statsRequests w; statsPending := statsPending w;
     projectsPending := projectsPending w; downloads := downloads w |}.

Definition setClock (v : Z) (w : World) : World :=
  {| ui := ui w; clock := v; debounceTimer := debounceTimer w;
     listRequests := listRequests w; listPending := listPending w;
     statsRequests := statsRequests w; statsPending := statsPending w;
     projectsPending := projectsPending w; downloads := downloads w |}.

Definition setTimer (v : option (Z * Query)) (w : World) : World :=
  {| ui := ui w; clock := clock w; debounceTimer := v;
     listRequests := listRequests w; listPending := listPending w;
     statsRequests := statsRequests w; statsPending := statsPending w;
     projectsPending := projectsPending w; downloads := downloads w |}.

Definition setList (reqs : list Query) (pending : list nat) (w : World)
  : World :=
  {| ui := ui w; clock := clock w; debounceTimer := debounceTimer w;
     listRequests := reqs; listPending := pending;
     statsRequests := statsRequests w; statsPending := statsPending w;
     projectsPending := projectsPending w; downloads := downloads w |}.

Definition setStats (reqs : list Z) (pending : list nat) (w : World)
  : World :=
  {| ui := ui w; clock := clock w; debounceTimer := debounceTimer w;
     listRequests := listRequests w; listPending := listPending w;
     statsRequests := reqs; statsPending := pending;
     projectsPending := projectsPending w; downloads := downloads w |}.

Definition setProjectsPending (v : bool) (w : World) : World :=
  {| ui := ui w; clock := clock w; debounceTimer := debounceTimer w;
     listRequests := listRequests w; listPending := listPending w;
     statsRequests := statsRequests w; statsPending := statsPending w;
     projectsPending := v; downloads := downloads w |}.

Definition setDownloads (v : list (string * string)) (w : World) : World :=
  {| ui := ui w; clock := clock w; debounceTimer := debounceTimer w;
     listRequests := listRequests w; listPending := listPending w;
     statsRequests := statsRequests w; statsPending := statsPending w;
     projectsPending := projectsPending w; downloads := v |}.

(** The debounce delay given to [setTimeout]. *)
Definition debounceDelay : Z := 500.

Definition sameProject (a b : option Z) : bool :=
  match a, b with
  | Some x, Some y => x =? y
  | None, None => true
  | _, _ => false
  end.

(** Whether a dependency of the list effect,
    [[selectedProject, searchQuery, filters, pagination.page]], differs
    between two renders. [filters] is compared by identity: it differs
    exactly when [setFilters] ran, which [freshFilters] records. *)
Definition listDepsChanged (freshFilters : bool) (old new : Dashboard) : bool :=
  negb (sameProject (selectedProject old) (selectedProject new))
  || negb (String.eqb (searchQuery old) (searchQuery new))
  || freshFilters
  || negb (page (pagination old) =? page (pagination new)).

(** [fetchOverallStats] up to its [await]. *)
Definition fetchOverallStats (s : Dashboard) (w : World) : World :=
  match selectedProject s with
  | Some id =>
      if isValidProjectId (Some id)
      then setStats (statsRequests w ++ [id])
                    (List.length (statsRequests w) :: statsPending w) w
      else w
  | None => w
  end.

(** [fetchOverallStats] after its [await]. *)
Definition fetchOverallStatsSettled (r : option StatsSummary) (s : Dashboard)
  : Dashboard :=
  match r with
  | Some data => setOverallStats data s
  | None => setError "Failed to load statistics. Please try again." s
  end.

(** [fetchProjects] after its [await]. *)
Definition fetchProjectsSettled (r : option (list Project)) (s : Dashboard)
  : Dashboard :=
  match r with
  | Some data => setProjects data s
  | None => setError "Failed to load projects. Please try again later." s
  end.

(** A render with the new component state [s']: the effects whose
    dependencies changed run again. The stats effect calls
    [fetchOverallStats] at once; the list effect runs its cleanup
    ([clearTimeout]) and sets a new timer for [fetchRequirements], whose
    closure holds the values of this render. *)
Definition render (freshFilters : bool) (s' : Dashboard) (w : World) : World :=
  let s := ui w in
  let w := setUi s' w in
  let w :=
    if sameProject (selectedProject s) (selectedProject s') then w
    else fetchOverallStats s' w in
  if listDepsChanged freshFilters s s'
  then setTimer (Some (clock w + debounceDelay, queryOf s')) w
  else w.

(** [fetchRequirements] up to its [await], run by the timer with the query
    [q] of its closure. *)
Definition fetchRequirements (q : Query) (w : World) : World :=
  if negb (isValidProjectId (q_project q)) then w
  else
    let s := setLoading true (ui w) in
    let s := setError "" s in
    setList (listRequests w ++ [q])
            (List.length (listRequests w) :: listPending w)
            (setUi s w).

(** The passing of [ms] milliseconds: a timer whose deadline is reached
    fires. *)
Definition elapse (ms : Z) (w : World) : World :=
  let t := clock w + ms in
  match debounceTimer w with
  | Some (deadline, q) =>
      if deadline <=? t
      then setClock t (fetchRequirements q (setTimer None w))
      else setClock t w
  | None => setClock t w
  end.

(** The component right after mounting: the project fetch is under way and
    the list effect has set its first timer. *)
Definition mounted : World :=
  {| ui := initial; clock := 0;
     debounceTimer := Some (debounceDelay, queryOf initial);
     listRequests := []; listPending := [];
     statsRequests := []; statsPending := [];
     projectsPending := true; downloads := [] |}.

(** What can happen to the mounted component. *)
Inductive Event : Type :=
| ProjectsSettled (r : option (list Project))
| SelectProject (value : string)
| TypeSearch (value : string)
| ToggleFilter (filterType : FilterType) (value : string)
| ClickPrevious
| ClickNext
| ClickExport
| Elapse (ms : Z)
| ListSettled (id : nat) (r : ListResult)
| StatsSettled (id : nat) (r : option StatsSummary).

Definition isPending (id : nat) (pending : list nat) : bool :=
  existsb (Nat.eqb id) pending.

Definition dropPending (id : nat) (pending : list nat) : list nat :=
  filter (fun i => negb (Nat.eqb id i)) pending.

(** The values of the options of the project select. *)
Definition projectOptions (s : Dashboard) : list string :=
  "" :: map (fun p => toString (num (proj_id p))) (projects s).

(** One event. [None] means that the event cannot happen in this state:
    the control is disabled or not rendered, or no such request is
    outstanding. *)
Definition step (e : Event) (w : World) : option World :=
  let s := ui w in
  match e with
  | ProjectsSettled r =>
      if projectsPending w
      then Some (render false (fetchProjectsSettled r s)
                        (setProjectsPending false w))
      else None
  | SelectProject value =>
      if negb (loading s) && arrIncludes (projectOptions s) value
      then Some (render false (handleProjectChange value s) w)
      else None
  | TypeSearch value =>
      if isValidProjectId (selectedProject s) && negb (loading s)
      then Some (render false (handleSearchChange value s) w)
      else None
  | ToggleFilter filterType value =>
      if isValidProjectId (selectedProject s)
         && arrIncludes (filterOptions filterType) value
      then Some (render true (handleFilterChange filterType value s) w)
      else None
  | ClickPrevious =>
      if isValidProjectId (selectedProject s) && negb (loading s)
         && negb (List.length (requirements s) =? 0)%nat
         && negb (page (pagination s) =? 1)
      then Some (render false (previousPage s) w)
      else None
  | ClickNext =>
      if isValidProjectId (selectedProject s) && negb (loading s)
         && negb (List.length (requirements s) =? 0)%nat
         && negb (page (pagination s) =? pages (pagination s))
      then Some (render false (nextPage s) w)
      else None
  | ClickExport =>
      match clickExport s with
      | Download filename content =>
          Some (setDownloads (downloads w ++ [(filename, content)]) w)
      | _ => Some w
      end
  | Elapse ms =>
      if 0 <=? ms then Some (elapse ms w) else None
  | ListSettled id r =>
      if isPending id (listPending w)
      then Some (render false (fetchRequirementsSettled r s)
                        (setList (listRequests w)
                                 (dropPending id (listPending w)) w))
      else None
  | StatsSettled id r =>
      if isPending id (statsPending w)
      then Some (render false (fetchOverallStatsSettled r s)
                        (setStats (statsRequests w)
                                  (dropPending id (statsPending w)) w))
      else None
  end.

(** A run of events, in order. *)
Fixpoint run (events : list Event) (w : World) : option World :=
  match events with
  | [] => Some w
  | e :: rest =>
      match step e w with
      | Some w' => run rest w'
      | None => None
      end
  end.

(** The states the mounted component can be in. *)
Definition reachable (w : World) : Prop :=
  exists events, run events mounted = Some w.

(** ** The specification's wording *)

(** A guidance line as the specification describes it: appended, after a
    blank line, exactly when its classification applies. *)
Definition guidance (applies : bool) (text : string) : string :=
  if applies then nl ++ nl ++ text else EmptyString.

(** The composed message of the specification: the raw text followed by
    the guidance of every classification that applies to the raw text. *)
Definition composedMessage (raw : string) : string :=
  raw
  ++ guidance (includes raw "Unauthorized") "Please reconnect Jira integration"
  ++ guidance (includes raw "projectKey") "Verify project key exists in Jira"
  ++ guidance (includes raw "issuetype") "Check project has valid issue types".

(** Whether the character [c] occurs in [s]. *)
Fixpoint occurs (c : ascii) (s : string) : bool :=
  match s with
  | EmptyString => false
  | String x rest => Ascii.eqb x c || occurs c rest
  end.

(** The number of records with a given status, counted one by one. *)
Fixpoint numberWithStatus (st : string) (reqs : list Requirement) : nat :=
  match reqs with
  | [] => 0%nat
  | r :: rest =>
      ((if String.eqb (status r) st then 1 else 0)
       + numberWithStatus st rest)%nat
  end.

(** The number of records whose status is none of the three that are
    counted: the drafts, and whatever else a record may carry. *)
Definition numberResidual (reqs : list Requirement) : nat :=
  List.length
    (filter (fun r => negb (String.eqb (status r) "Approved")
                      && negb (String.eqb (status r) "Review")
                      && negb (String.eqb (status r) "Disapproved"))
            reqs).

(** The sum of a list of rationals. *)
Fixpoint Qsum (qs : list Q) : Q :=
  match qs with
  | [] => 0%Q
  | q :: rest => (q + Qsum rest)%Q
  end.

(** ** The example of the specification *)

Definition acme : Project :=
  {| proj_id := 1; proj_name := "Acme Co"; hourly_rate := num 50 |}.

(** The requirement whose text is [He said "hi"], quotes included. *)
Definition greeting : Requirement :=
  {| req_id := "abc123";
     requirement := "He said " ++ dquote ++ "hi" ++ dquote;
     status := "Approved";
     priority := "High";
     complexity := "Low";
     author := "Jo";
     date := "2024-01-05";
     estimated_time := num 2 |}.

(** The dashboard with [acme] selected and [greeting] as its only
    requirement. *)
Definition acmeDashboard : Dashboard :=
  setRequirements [greeting]
    (setSelectedProject (Some 1) (setProjects [acme] initial)).

(** The column header of the export, joined. *)
Definition columnHeader : string :=
  "ID,Requirement,Status,Priority,Complexity,Author,Date,Hours,Cost,"
  ++ "Cost/Hour".

(** The requirement row the specification gives for [greeting]. *)
Definition greetingRow : string :=
  "abc123," ++ dquote ++ "He said " ++ dquote ++ dquote ++ "hi" ++ dquote
  ++ dquote ++ dquote
  ++ ",Approved,High,Low,Jo,2024-01-05,2,$100.00,$50.00".

(** A requirement whose estimate is [h]. *)
Definition withHours (h : JsNum) : Requirement :=
  {| req_id := "r1"; requirement := "Audit log"; status := "Draft";
     priority := "Low"; complexity := "Low"; author := "Jo";
     date := "2024-01-05"; estimated_time := h |}.

Definition isFinite (a : JsNum) : bool :=
  match a with Fin _ => true | _ => false end.

Definition isInfinite (a : JsNum) : bool :=
  match a with Inf _ => true | _ => false end.

(** What an estimate that is not infinite adds to the total hours: its
    value, or nothing when it is [NaN]. *)
Definition hoursOf (a : JsNum) : Q :=
  match a with Fin q => q | _ => 0%Q end.

(** The clamping the specification asks of the cost of a record: zero
    whenever the hours or the rate are negative or not finite. *)
Definition costsClamped : Prop :=
  forall (rate : JsNum) (req : Requirement),
    is_negative (estimated_time req) || is_negative rate
    || negb (isFinite (estimated_time req)) || negb (isFinite rate) = true ->
    cardCost rate req = num 0
    /\ totalCost (calculateCosts rate [req]) = num 0.

(** ** Traces *)

(** What the user sees of the list: the requirements, the filtered stats
    and the pagination. *)
Definition displayed (s : Dashboard)
  : list Requirement * StatsSummary * Pagination :=
  (requirements s, filteredStats s, pagination s).

(** Whether the event changes a dependency of the list effect in the
    state it happens in, so that the effect runs again. *)
Definition isQueryChange (e : Event) (w : World) : bool :=
  match e with
  | SelectProject value =>
      negb (sameProject (selectedProject (ui w))
                        (selectedProject (handleProjectChange value (ui w))))
  | TypeSearch value => negb (String.eqb (searchQuery (ui w)) value)
  | ToggleFilter _ _ => true
  | ClickPrevious => true
  | ClickNext => true
  | _ => false
  end.

(** Query changes that follow one another within the debounce delay: each
    happens [gap] milliseconds after the one before, with
    [0 <= gap < debounceDelay], and nothing else happens in between. *)
Fixpoint burst (changes : list (Z * Event)) (w : World) : option World :=
  match changes with
  | [] => Some w
  | (gap, e) :: rest =>
      if (0 <=? gap) && (gap <? debounceDelay) then
        match step (Elapse gap) w with
        | Some w1 =>
            if isQueryChange e w1 then
              match step e w1 with
              | Some w2 => burst rest w2
              | None => None
              end
            else None
        | None => None
        end
      else None
  end.

(** The debounce as the specification words it: after a burst of query
    changes and a quiet period, exactly one list request has been issued,
    with the query of the last change. *)
Definition debounceAlwaysRequests : Prop :=
  forall (w0 w1 wn w' : World) (e1 : Event) (rest : list (Z * Event)) (ms : Z),
    reachable w0 ->
    isQueryChange e1 w0 = true ->
    step e1 w0 = Some w1 ->
    burst rest w1 = Some wn ->
    debounceDelay <= ms ->
    step (Elapse ms) wn = Some w' ->
    listRequests w' = (listRequests w0 ++ [queryOf (ui wn)])%list.

(** The staleness rule as the specification words it: the response of a
    request that was issued before another one leaves the displayed state
    as it is. *)
Definition staleResponsesIgnored : Prop :=
  forall (w w' : World) (id1 id2 : nat) (r : ListResult),
    reachable w ->
    (id1 < id2 < List.length (listRequests w))%nat ->
    step (ListSettled id1 r) w = Some w' ->
    displayed (ui w') = displayed (ui w).

(** Whether the event waits for a request under way: a filter box is not
    ticked while [loading] is set. The other controls that change the
    query are disabled or not rendered then. *)
Definition awaitsResponse (e : Event) (w : World) : bool :=
  match e with
  | ToggleFilter _ _ => negb (loading (ui w))
  | _ => true
  end.

(** A run in which every event waits for the request under way. *)
Fixpoint runAwaiting (events : list Event) (w : World) : option World :=
  match events with
  | [] => Some w
  | e :: rest =>
      if awaitsResponse e w then
        match step e w with
        | Some w' => runAwaiting rest w'
        | None => None
        end
      else None
  end.

(** At most one list request is outstanding, the one issued last; it is
    outstanding exactly while [loading] is set, and no timer is pending
    then. *)
Definition singleFlight (w : World) : Prop :=
  match listPending w with
  | [] => loading (ui w) = false
  | [id] =>
      loading (ui w) = true
      /\ debounceTimer w = None
      /\ S id = List.length (listRequests w)
  | _ => False
  end.

Definition orMounted (w : option World) : World :=
  match w with Some w' => w' | None => mounted end.

(** The projects have arrived and [acme] has been selected. *)
Definition acmeSelected : list Event :=
  [ProjectsSettled (Some [acme]); SelectProject "1"].

(** The first list request is under way. *)
Definition firstRequest : list Event := (acmeSelected ++ [Elapse 500])%list.

Definition firstRequestWorld : World := orMounted (run firstRequest mounted).

(** A first page of three has arrived and the user has gone to page 2. *)
Definition onPageTwo : list Event :=
  (firstRequest
   ++ [ ListSettled 0 (ListResolved {| d_requirements := Some [greeting];
                                       d_page := Some 1; d_pages := Some 3;
                                       d_total := Some 25 |});
        ClickNext ])%list.

Definition onPageTwoWorld : World := orMounted (run onPageTwo mounted).

(** While the first request is under way the user ticks a status filter;
    the second request goes out and is answered first. *)
Definition overtaken : list Event :=
  (firstRequest
   ++ [ ToggleFilter FStatus "Approved";
        Elapse 500;
        ListSettled 1 (ListResolved {| d_requirements := Some [greeting];
                                       d_page := Some 1; d_pages := Some 1;
                                       d_total := Some 1 |}) ])%list.

Definition overtakenWorld : World := orMounted (run overtaken mounted).

(** The late answer to the first request: the unfiltered list. *)
Definition lateAnswer : ListResult :=
  ListResolved {| d_requirements := Some [withHours (num 8); greeting];
                  d_page := Some 1; d_pages := Some 1; d_total := Some 2 |}.

(** The projects have arrived and nothing is selected. *)
Definition projectsLoadedWorld : World :=
  orMounted (run [ProjectsSettled (Some [acme])] mounted).

(** ** Well-behaved responses *)

(** Whether the page a list response names, after the defaults, lies
    within its number of pages. A failed response names none. *)
Definition pageInRange (r : ListResult) : bool :=
  match r with
  | ListResolved data =>
      (1 <=? int_or (d_page data) 1)
      && (int_or (d_page data) 1 <=? int_or (d_pages data) 1)
  | ListRejected _ => true
  end.

Definition wellPaged (e : Event) : bool :=
  match e with
  | ListSettled _ r => pageInRange r
  | _ => true
  end.

(** The pending timer holds the current query and is due within the
    debounce delay. *)
Definition timerCurrent (w : World) : Prop :=
  forall deadline q,
    debounceTimer w = Some (deadline, q) ->
    q = queryOf (ui w)
    /\ clock w < deadline <= clock w + debounceDelay.

Definition pageBounded (w : World) : Prop :=
  1 <= page (pagination (ui w)) <= pages (pagination (ui w)).

(** ** Reading the export *)

(** What a reader of the document does with the text between the quotes
    of a cell: two double quotes in a row stand for one. *)
Fixpoint undouble (s : string) : string :=
  match s with
  | EmptyString => EmptyString
  | String c tail =>
      match tail with
      | String c' rest =>
          if Ascii.eqb c (ascii_of_nat 34) && Ascii.eqb c' (ascii_of_nat 34)
          then String c (undouble rest)
          else String c (undouble tail)
      | EmptyString => String c EmptyString
      end
  end.

(** Whether every character of [s] satisfies [p]. *)
Fixpoint allChars (p : ascii -> bool) (s : string) : bool :=
  match s with
  | EmptyString => true
  | String c rest => p c && allChars p rest
  end.

(** The characters of the name of an exported file. *)
Definition fileNameChar (c : ascii) : bool :=
  is_alnum c || Ascii.eqb c "_"%char || Ascii.eqb c "."%char.

(** ** Not a number *)

Definition isNaN (a : JsNum) : bool :=
  match a with NaN => true | _ => false end.

(** Whether some estimate of the list is the infinity of the given
    sign. *)
Definition hasInfinite (negative : bool) (reqs : list Requirement) : bool :=
  existsb (fun r => match estimated_time r with
                    | Inf s => Bool.eqb s negative
                    | _ => false
                    end) reqs.

(** ** The Jira integration *)

Definition setJiraSettings (v : JiraSettings) (s : Dashboard) : Dashboard :=
  {| requirements := requirements s; overallStats := overallStats s;
     filteredStats := filteredStats s; searchQuery := searchQuery s;
     filters := filters s; loading := loading s; error := error s;
     pagination := pagination s; selectedProject := selectedProject s;
     projects := projects s; jiraSettings := v;
     isJiraModalOpen := isJiraModalOpen s |}.

Definition setIsJiraModalOpen (v : bool) (s : Dashboard) : Dashboard :=
  {| requirements := requirements s; overallStats := overallStats s;
     filteredStats := filteredStats s; searchQuery := searchQuery s;
     filters := filters s; loading := loading s; error := error s;
     pagination := pagination s; selectedProject := selectedProject s;
     projects := projects s; jiraSettings := jiraSettings s;
     isJiraModalOpen := v |}.

(** How the connect request settles: it resolves with
    [response.data.success], or it rejects with an error that may carry
    the server's [response.data.error]. *)
Inductive ConnectResult : Type :=
| ConnectResolved (success : bool) : ConnectResult
| ConnectRejected (responseError : option string) : ConnectResult.

(** [connectToJira] after its [await], for settings whose [projectKey] is
    [key]: the new component state and the alerts raised. A response
    without [success] falls through the [if] and does nothing. *)
Definition connectToJira (key : string) (r : ConnectResult) (s : Dashboard)
  : Dashboard * list string :=
  match r with
  | ConnectResolved true =>
      let s := setJiraSettings {| isConnected := true; projectKey := key |} s in
      (setIsJiraModalOpen false s, ["Successfully connected to Jira!"])
  | ConnectResolved false => (s, [])
  | ConnectRejected responseError =>
      (s, [str_or responseError
                  "Jira connection failed. Please check your settings."])
  end.

(** The push button of a [RequirementCard]: rendered for an approved
    requirement only, and then [Some disabled]. *)
Definition pushButton (s : Dashboard) (req : Requirement) : option bool :=
  if String.eqb (status req) "Approved"
  then Some (negb (isConnected (jiraSettings s)))
  else None.

(** The cards are rendered while a valid project is selected and no list
    request is under way. *)
Definition cardsShown (s : Dashboard) : bool :=
  isValidProjectId (selectedProject s) && negb (loading s).

(** The component with what its Jira calls leave outside: the alerts
    raised, the ids of the requirements pushed so far and the number of
    push requests that have not settled. *)
Record Session : Type := {
  world : World;
  alerts : list string;
  pushRequests : list string;
  pushPending : nat }.

Inductive Action : Type :=
| OnDashboard (e : Event)
| ClickJiraButton
| CloseJiraModal
| ConnectSettled (key : string) (r : ConnectResult)
| ClickPush (index : nat)
| PushSettled (r : PushResult).

Definition started : Session :=
  {| world := mounted; alerts := []; pushRequests := []; pushPending := 0 |}.

(** One action. [None] means that it cannot happen: the button is not
    rendered or disabled, or no push is outstanding. *)
Definition act (a : Action) (ss : Session) : option Session :=
  let w := world ss in
  let s := ui w in
  match a with
  | OnDashboard e =>
      match step e w with
      | Some w' =>
          Some {| world := w'; alerts := alerts ss;
                  pushRequests := pushRequests ss;
                  pushPending := pushPending ss |}
      | None => None
      end
  | ClickJiraButton =>
      Some {| world := render false (setIsJiraModalOpen true s) w;
              alerts := alerts ss; pushRequests := pushRequests ss;
              pushPending := pushPending ss |}
  | CloseJiraModal =>
      Some {| world := render false (setIsJiraModalOpen false s) w;
              alerts := alerts ss; pushRequests := pushRequests ss;
              pushPending := pushPending ss |}
  | ConnectSettled key r =>
      Some {| world := render false (fst (connectToJira key r s)) w;
              alerts := (alerts ss ++ snd (connectToJira key r s))%list;
              pushRequests := pushRequests ss;
              pushPending := pushPending ss |}
  | ClickPush index =>
      match nth_error (requirements s) index with
      | Some req =>
          match pushButton s req with
          | Some false =>
              if cardsShown s
              then Some {| world := w; alerts := alerts ss;
                           pushRequests :=
                             (pushRequests ss ++ [req_id req])%list;
                           pushPending := S (pushPending ss) |}
              else None
          | _ => None
          end
      | None => None
      end
  | PushSettled r =>
      match pushPending ss with
      | S n =>
          Some {| world := w; alerts := (alerts ss ++ [pushToJira r])%list;
                  pushRequests := pushRequests ss; pushPending := n |}
      | O => None
      end
  end.

Fixpoint perform (actions : list Action) (ss : Session) : option Session :=
  match actions with
  | [] => Some ss
  | a :: rest =>
      match act a ss with
      | Some ss' => perform rest ss'
      | None => None
      end
  end.

(** What of the world the list and its fetch consist of. *)
Definition listMachinery (w : World)
  : Query * (list Requirement * StatsSummary * Pagination) * bool * string
    * Z * option (Z * Query) * list Query * list nat :=
  (queryOf (ui w), displayed (ui w), loading (ui w), error (ui w),
   clock w, debounceTimer w, listRequests w, listPending w).

(** Without a connection there is no project key and nothing has been
    pushed, and no more pushes are outstanding than were made. *)
Definition jiraConsistent (ss : Session) : Prop :=
  let j := jiraSettings (ui (world ss)) in
  (isConnected j = false -> projectKey j = EmptyString
                            /\ pushRequests ss = [])
  /\ (pushPending ss <= List.length (pushRequests ss))%nat.

Definition orStarted (ss : option Session) : Session :=
  match ss with Some ss' => ss' | None => started end.

(** The session of a dashboard whose first list request is under way. *)
Definition firstRequestSession : Session :=
  {| world := firstRequestWorld; alerts := []; pushRequests := [];
     pushPending := 0 |}.

(** A session in which a project is connected and an approved requirement
    is on display. *)
Definition connectedSession : Session :=
  orStarted (perform [OnDashboard (ListSettled 0 lateAnswer);
                      ConnectSettled "REQ" (ConnectResolved true)]
                     firstRequestSession).


(** ** A dashboard without projects *)

(** Whether the error message is on screen: it is rendered inside the
    block of a valid project, when [error] is not empty. *)
Definition errorShown (s : Dashboard) : bool :=
  isValidProjectId (selectedProject s) && negb (String.eqb (error s) "").

(** No project is listed or selected, the pending timer is for no project
    and no request has been issued. *)
Definition noProject (w : World) : Prop :=
  projects (ui w) = [] /\ selectedProject (ui w) = None
  /\ (forall deadline q,
        debounceTimer w = Some (deadline, q) -> q_project q = None)
  /\ listRequests w = [] /\ listPending w = []
  /\ statsRequests w = [] /\ statsPending w = [].
(** * Proofs *)

(** ** The primitives on sample values *)

Example toFixed2_samples :
  map toFixed2 [num 100; Fin (5 # 2); Fin (1 # 8); Fin (-1 # 1000); num 0;
                NaN; Inf false; Inf true]
  = ["100.00"; "2.50"; "0.13"; "-0.00"; "0.00"; "NaN"; "Infinity";
     "-Infinity"].
Proof. vm_compute. reflexivity. Qed.

Example toString_samples :
  map toString [num 2; num 0; num (-17); Fin (5 # 2); Fin (-1 # 8); NaN]
  = ["2"; "0"; "-17"; "2.5"; "-0.125"; "NaN"].
Proof. vm_compute. reflexivity. Qed.

Example toISOString_samples :
  map (fun s => toISOString (Date_parse s))
      ["2024-01-05"; "2024-02-29T23:59:58.123Z"; "1969-12-31T23:59:58Z";
       "2000-03-01"; "2023-02-29"; "yesterday"]
  = [Some "2024-01-05T00:00:00.000Z"; Some "2024-02-29T23:59:58.123Z";
     Some "1969-12-31T23:59:58.000Z"; Some "2000-03-01T00:00:00.000Z";
     None; None].
Proof. vm_compute. reflexivity. Qed.

Example Date_parse_epoch :
  Date_parse "1970-01-01" = Some 0
  /\ Date_parse "2024-01-05" = Some 1704412800000.
Proof. split; vm_compute; reflexivity. Qed.

Example parseInt10_samples :
  map parseInt10 ["12"; ""; " -7px"; "x1"; "007"]
  = [Some 12; None; Some (-7); None; Some 7].
Proof. vm_compute. reflexivity. Qed.

Example includes_samples :
  map (includes "401 Unauthorized: token expired")
      ["Unauthorized"; "unauthorized"; ""; "expired"; "expired!"]
  = [true; false; true; true; false].
Proof. vm_compute. reflexivity. Qed.

Example toggleFilter_twice :
  toggleFilter FStatus "Draft" (toggleFilter FStatus "Draft" noFilters)
  = noFilters.
Proof. reflexivity. Qed.

(** ** Strings *)

Lemma append_assoc (a b c : string) : (a ++ b) ++ c = a ++ (b ++ c).
Proof. induction a as [|x a IH]; simpl; [reflexivity | now rewrite IH]. Qed.

Lemma append_empty_r (a : string) : a ++ EmptyString = a.
Proof. induction a as [|x a IH]; simpl; [reflexivity | now rewrite IH]. Qed.

Lemma prefix_empty (s : string) : String.prefix EmptyString s = true.
Proof. destruct s; reflexivity. Qed.

Lemma prefix_append (n a b : string) :
  String.prefix n a = true -> String.prefix n (a ++ b) = true.
Proof.
  revert a. induction n as [|c n IH]; intros a H.
  - apply prefix_empty.
  - destruct a as [|x a]; simpl in *; [discriminate|].
    destruct (ascii_dec c x); [now apply IH | discriminate].
Qed.

(** A needle without the character [c] that starts inside [a] cannot run
    over a [c] placed right after [a]. *)
Lemma prefix_append_sep (c : ascii) (n a b : string) :
  occurs c n = false ->
  String.prefix n (a ++ String c b) = String.prefix n a.
Proof.
  revert a. induction n as [|x n IH]; intros a H.
  - now rewrite !prefix_empty.
  - simpl in H. apply orb_false_iff in H. destruct H as [Hx Hn].
    destruct a as [|y a]; simpl.
    + destruct (ascii_dec x c) as [->|]; [|reflexivity].
      now rewrite Ascii.eqb_refl in Hx.
    + destruct (ascii_dec x y); [now apply IH | reflexivity].
Qed.

Lemma includes_append_sep (c : ascii) (n a b : string) :
  occurs c n = false ->
  includes (a ++ String c b) n = includes a n || includes (String c b) n.
Proof.
  intros H. induction a as [|y a IH].
  - simpl. destruct n as [|x n]; [reflexivity|].
    simpl. reflexivity.
  - cbn [append includes].
    change (String y (a ++ String c b)) with (String y a ++ String c b).
    rewrite (prefix_append_sep c n (String y a) b H), IH.
    now rewrite orb_assoc.
Qed.

Lemma includes_prefix (a b : string) : includes (a ++ b) a = true.
Proof.
  assert (Hp : String.prefix a (a ++ b) = true).
  { induction a as [|x a IH]; simpl.
    - apply prefix_empty.
    - destruct (ascii_dec x x); [exact IH | congruence]. }
  destruct a as [|x a].
  - destruct b; simpl; [reflexivity|]. reflexivity.
  - cbn [append includes]. change (String x (a ++ b)) with (String x a ++ b).
    now rewrite Hp.
Qed.

(** The guidance lines start with a line feed, which no classification
    keyword contains, and hold no keyword themselves: appending one does
    not change what the later checks find. *)
Lemma includes_guidance (raw text key : string) :
  occurs (ascii_of_nat 10) key = false ->
  includes (nl ++ nl ++ text) key = false ->
  includes (raw ++ nl ++ nl ++ text) key = includes raw key.
Proof.
  intros Hk Hg. unfold nl in *. cbn [append] in *.
  rewrite (includes_append_sep _ _ _ _ Hk), Hg. apply orb_false_r.
Qed.

Ltac app_norm :=
  cbn [append]; repeat rewrite append_assoc; repeat rewrite append_empty_r;
  cbn [append]; reflexivity.

(** The pass as the code runs it, each check on the text extended so far,
    composes the same message as independent checks on the raw text. *)
Lemma classifyError_composed (raw : string) :
  classifyError raw = composedMessage raw.
Proof.
  unfold classifyError, composedMessage, guidance.
  destruct (includes raw "Unauthorized") eqn:U.
  - rewrite (includes_guidance raw _ "projectKey") by reflexivity.
    destruct (includes raw "projectKey") eqn:P.
    + rewrite (includes_guidance (raw ++ _) _ "issuetype") by reflexivity.
      rewrite (includes_guidance raw _ "issuetype") by reflexivity.
      destruct (includes raw "issuetype"); app_norm.
    + rewrite (includes_guidance raw _ "issuetype") by reflexivity.
      destruct (includes raw "issuetype"); app_norm.
  - destruct (includes raw "projectKey") eqn:P.
    + rewrite (includes_guidance raw _ "issuetype") by reflexivity.
      destruct (includes raw "issuetype"); app_norm.
    + destruct (includes raw "issuetype"); app_norm.
Qed.

Lemma includes_inside (a b c : string) : includes (a ++ b ++ c) b = true.
Proof.
  induction a as [|x a IH].
  - cbn [append]. apply includes_prefix.
  - cbn [append includes]. rewrite IH. apply orb_true_r.
Qed.

Lemma includes_guidance_text (a text c : string) :
  includes (a ++ guidance true text ++ c) text = true.
Proof.
  unfold guidance.
  replace (a ++ (nl ++ nl ++ text) ++ c) with ((a ++ nl ++ nl) ++ text ++ c)
    by now rewrite !append_assoc.
  apply includes_inside.
Qed.

(** C3. The error-classification pass of [pushToJira] composes the raw
    error text [raw] with the reconnect guidance exactly when [raw]
    contains [Unauthorized], the verify-project-key guidance exactly when
    it contains [projectKey] and the check-issue-types guidance exactly
    when it contains [issuetype]: the three checks are independent although
    the code runs the later ones on the text the earlier ones extended. The
    composed message contains [raw] and every guidance whose keyword [raw]
    contains, a text matching no keyword passes through unmodified, and the
    alert of every failed push carries the composed message. *)
Theorem classifyError_independent_checks (raw : string) :
  classifyError raw = composedMessage raw
  /\ includes (classifyError raw) raw = true
  /\ (includes raw "Unauthorized" = true ->
      includes (classifyError raw) "Please reconnect Jira integration" = true)
  /\ (includes raw "projectKey" = true ->
      includes (classifyError raw) "Verify project key exists in Jira" = true)
  /\ (includes raw "issuetype" = true ->
      includes (classifyError raw) "Check project has valid issue types" = true)
  /\ (includes raw "Unauthorized" = false ->
      includes raw "projectKey" = false ->
      includes raw "issuetype" = false ->
      classifyError raw = raw)
  /\ (forall e, pushToJira (PushResolved (PushFailure e))
                = "Jira push failed!" ++ nl ++ nl
                  ++ classifyError (str_or e "Unknown error"))
  /\ (forall e m, pushToJira (PushRejected e m)
                  = "Jira push failed!" ++ nl ++ nl
                    ++ classifyError (str_or e m)).
Proof.
  rewrite classifyError_composed. unfold composedMessage.
  split; [reflexivity|].
  split; [apply includes_prefix|].
  split; [|split; [|split; [|split; [|split]]]].
  - intros ->. apply includes_guidance_text.
  - intros ->. rewrite <- (append_assoc raw). apply includes_guidance_text.
  - intros ->. rewrite <- (append_empty_r (guidance true _)).
    rewrite <- (append_assoc raw), <- (append_assoc (raw ++ _)).
    apply includes_guidance_text.
  - intros -> -> ->. cbn [guidance append]. apply append_empty_r.
  - reflexivity.
  - reflexivity.
Qed.

(** The alert of a push that ran into the thirty-second timeout: the text
    matches no keyword and is passed on as it is. *)
Lemma classifyError_timeout_unmodified :
  classifyError "timeout of 30000ms exceeded" = "timeout of 30000ms exceeded".
Proof.
  apply (classifyError_independent_checks "timeout of 30000ms exceeded");
    reflexivity.
Defined.

(** ** Stats and costs *)

Lemma countStatus_numberWithStatus (st : string) (reqs : list Requirement) :
  countStatus st reqs = numberWithStatus st reqs.
Proof.
  unfold countStatus. induction reqs as [|r reqs IH]; simpl; [reflexivity|].
  destruct (String.eqb (status r) st); simpl; now rewrite IH.
Qed.

(** Every record is counted under exactly one of the three statuses or
    under the residual ones. *)
Lemma statuses_partition (reqs : list Requirement) :
  (numberWithStatus "Approved" reqs + numberWithStatus "Review" reqs
   + numberWithStatus "Disapproved" reqs + numberResidual reqs
   = List.length reqs)%nat.
Proof.
  unfold numberResidual.
  induction reqs as [|r reqs IH]; cbn [numberWithStatus filter List.length];
    [reflexivity|].
  destruct (String.eqb_spec (status r) "Approved") as [E|_];
    [rewrite E; cbn; lia|].
  destruct (String.eqb_spec (status r) "Review") as [E|_];
    [rewrite E; cbn; lia|].
  destruct (String.eqb (status r) "Disapproved"); cbn; lia.
Qed.

(** C7. The stats aggregation of [fetchRequirements] counts the returned
    records: [total] is their number and [approved], [inReview] and
    [disapproved] are the numbers of records whose status is [Approved],
    [Review] and [Disapproved]. Together with the records of any other
    status, the drafts, the three counts add up to [total], so they never
    exceed it. The stats are a function of the records alone, and applying
    the same response a second time changes nothing. *)
Theorem newFilteredStats_counts (reqs : list Requirement) :
  total (newFilteredStats reqs) = List.length reqs
  /\ approved (newFilteredStats reqs) = numberWithStatus "Approved" reqs
  /\ inReview (newFilteredStats reqs) = numberWithStatus "Review" reqs
  /\ disapproved (newFilteredStats reqs) = numberWithStatus "Disapproved" reqs
  /\ (approved (newFilteredStats reqs) + inReview (newFilteredStats reqs)
      + disapproved (newFilteredStats reqs) + numberResidual reqs
      = total (newFilteredStats reqs))%nat
  /\ (approved (newFilteredStats reqs) + inReview (newFilteredStats reqs)
      + disapproved (newFilteredStats reqs)
      <= total (newFilteredStats reqs))%nat
  /\ (forall s p ps t,
        let r := ListResolved {| d_requirements := Some reqs; d_page := p;
                                 d_pages := ps; d_total := t |} in
        filteredStats (fetchRequirementsSettled r s) = newFilteredStats reqs
        /\ fetchRequirementsSettled r (fetchRequirementsSettled r s)
           = fetchRequirementsSettled r s).
Proof.
  cbn [newFilteredStats total approved inReview disapproved].
  rewrite !countStatus_numberWithStatus.
  pose proof (statuses_partition reqs) as P.
  repeat split; try reflexivity; lia.
Qed.

(** C10. The cost summary handed to the [Overall Statistics] section is
    computed from the displayed requirement list, like the one handed to
    the [Filtered Statistics] section: in every state, reachable or not,
    the two are the same [calculateCosts] of [requirements]. The overall
    cost does not depend on [overallStats], which is what the stats
    endpoint returned and what the overall section shows as its counts;
    a list response never changes [overallStats]. *)
Theorem overallCosts_are_currentCosts (s : Dashboard) :
  overallCosts s = currentCosts s
  /\ overallCosts s = calculateCosts (hourlyRate s) (requirements s)
  /\ map costs (statSections s) = map (fun _ => currentCosts s) (statSections s)
  /\ map stats (statSections s)
     = (if isValidProjectId (selectedProject s)
        then [overallStats s; filteredStats s] else [])
  /\ (forall v, overallCosts (setOverallStats v s) = overallCosts s)
  /\ (forall data,
        overallStats (fetchOverallStatsSettled (Some data) s) = data
        /\ overallCosts (fetchOverallStatsSettled (Some data) s)
           = overallCosts s)
  /\ (forall r, overallStats (fetchRequirementsSettled r s) = overallStats s).
Proof.
  repeat split.
  - unfold statSections. now destruct (isValidProjectId (selectedProject s)).
  - unfold statSections. now destruct (isValidProjectId (selectedProject s)).
  - now destruct r.
Qed.

(** ** Export *)

(** C4. For the project [Acme Co] with hourly rate [50] and the single
    requirement [greeting], [exportData] offers the file
    [requirements_Acme_Co_export.csv] whose rows, joined by line feeds, are
    the two metadata rows, a blank row, the column header, the requirement
    row [greetingRow], a blank row, [Total Hours,2] and
    [Total Cost,$100.00]. *)
Theorem exportData_acme (s : Dashboard) :
  selectedProjectData s = Some acme ->
  requirements s = [greeting] ->
  exportData s
  = Download "requirements_Acme_Co_export.csv"
      (join nl
         [ "Project Name,Acme Co";
           "Hourly Rate,$50.00";
           "";
           columnHeader;
           greetingRow;
           "";
           "Total Hours,2";
           "Total Cost,$100.00" ]).
Proof.
  intros Hp Hr. unfold exportData, hourlyRate. rewrite Hp, Hr.
  vm_compute. reflexivity.
Qed.

Lemma exportData_acme_dashboard :
  exportData acmeDashboard
  = Download "requirements_Acme_Co_export.csv"
      (join nl
         [ "Project Name,Acme Co";
           "Hourly Rate,$50.00";
           "";
           columnHeader;
           greetingRow;
           "";
           "Total Hours,2";
           "Total Cost,$100.00" ]).
Proof. apply (exportData_acme acmeDashboard); reflexivity. Defined.



(** The guard of [exportData] itself covers the missing project only:
    called on an empty list, which the disabled button prevents, it would
    offer a file with the header and the totals. *)
Remark exportData_empty_list :
  exportData (setRequirements [] acmeDashboard)
  = Download "requirements_Acme_Co_export.csv"
      (join nl
         [ "Project Name,Acme Co";
           "Hourly Rate,$50.00";
           "";
           columnHeader;
           "";
           "Total Hours,0";
           "Total Cost,$0.00" ]).
Proof. vm_compute. reflexivity. Qed.

(** ** Renders *)

Lemma fetchOverallStats_frame (s : Dashboard) (w : World) :
  ui (fetchOverallStats s w) = ui w
  /\ clock (fetchOverallStats s w) = clock w
  /\ debounceTimer (fetchOverallStats s w) = debounceTimer w
  /\ listRequests (fetchOverallStats s w) = listRequests w
  /\ listPending (fetchOverallStats s w) = listPending w.
Proof.
  unfold fetchOverallStats. destruct (selectedProject s) as [id|].
  - destruct (isValidProjectId (Some id)); repeat split.
  - repeat split.
Qed.

Lemma render_frame (fresh : bool) (s' : Dashboard) (w : World) :
  ui (render fresh s' w) = s'
  /\ clock (render fresh s' w) = clock w
  /\ listRequests (render fresh s' w) = listRequests w
  /\ listPending (render fresh s' w) = listPending w.
Proof.
  unfold render.
  destruct (sameProject _ _), (listDepsChanged _ _ _); cbn;
    try (repeat split; reflexivity);
    destruct (fetchOverallStats_frame s' (setUi s' w)) as (U & C & _ & L & P);
    cbn in *; repeat split; assumption.
Qed.

(** A render in which a dependency of the list effect changed replaces
    the timer: the closure of the new one holds the new query. *)
Lemma render_schedules (fresh : bool) (s' : Dashboard) (w : World) :
  listDepsChanged fresh (ui w) s' = true ->
  debounceTimer (render fresh s' w)
  = Some (clock w + debounceDelay, queryOf s').
Proof.
  intros H. unfold render. rewrite H.
  destruct (sameProject _ _); cbn; [reflexivity|].
  destruct (fetchOverallStats_frame s' (setUi s' w)) as (_ & C & _).
  cbn in C. now rewrite C.
Qed.

(** ** The list fetch *)

(** C6. When an outstanding list request fails, the requirement list is
    emptied, [error] becomes the message of the response body when there
    is a non-empty one and [Failed to load requirements] otherwise, and
    [loading] is cleared; [loading] is cleared when the request succeeds
    as well. *)
Theorem fetchRequirements_failure (w : World) (id : nat) (r : ListResult) :
  isPending id (listPending w) = true ->
  exists w',
    step (ListSettled id r) w = Some w'
    /\ ui w' = fetchRequirementsSettled r (ui w)
    /\ loading (ui w') = false
    /\ (forall e, r = ListRejected e ->
          requirements (ui w') = []
          /\ (forall m, e = Some m -> m <> EmptyString -> error (ui w') = m)
          /\ (e = None \/ e = Some EmptyString ->
              error (ui w') = "Failed to load requirements")).
Proof.
  intros H. cbn [step]. rewrite H. eexists. split; [reflexivity|].
  rewrite (proj1 (render_frame _ _ _)).
  split; [reflexivity|]. split; [now destruct r|].
  intros e ->. cbn. split; [reflexivity|]. split.
  - intros m -> Hm. cbn. destruct (String.eqb_spec m ""); congruence.
  - intros [->| ->]; reflexivity.
Qed.

(** The first request for [acme] fails with a message of the server. *)
Lemma fetchRequirements_failure_example :
  exists w',
    step (ListSettled 0 (ListRejected (Some "Database unavailable")))
         firstRequestWorld = Some w'
    /\ requirements (ui w') = []
    /\ error (ui w') = "Database unavailable"
    /\ loading (ui w') = false.
Proof.
  destruct (fetchRequirements_failure firstRequestWorld 0
              (ListRejected (Some "Database unavailable"))
              ltac:(vm_compute; reflexivity))
    as (w' & E & _ & L & F).
  destruct (F _ eq_refl) as (R & M & _).
  exists w'. split; [exact E|]. split; [exact R|]. split; [|exact L].
  apply (M _ eq_refl). discriminate.
Defined.

(** ** The cost model *)

Lemma Qred_plus_l (a q : Q) : Qred (Qred a + q) = Qred (a + q).
Proof. apply Qred_complete. now rewrite Qred_correct. Qed.

Lemma Qred_mult_l (a q : Q) : Qred (Qred a * q) = Qred (a * q).
Proof. apply Qred_complete. now rewrite Qred_correct. Qed.

Lemma Qsign_zero (q : Q) : Qsign q = 0 -> (q == 0)%Q.
Proof.
  destruct q as [[|n|n] d]; cbn; intros H; [reflexivity | discriminate..].
Qed.

(** A falsy finite number is zero, so [|| 0] does not change its value. *)
Lemma num_or_zero (q : Q) :
  exists q', num_or (Fin q) (num 0) = Fin q' /\ (q' == q)%Q.
Proof.
  unfold num_or, truthy. destruct (Qsign q =? 0) eqn:E; cbn [negb].
  - exists (inject_Z 0). split; [reflexivity|].
    apply Z.eqb_eq in E. now rewrite (Qsign_zero q E).
  - exists q. split; reflexivity.
Qed.

Lemma sumHours_from (a : Q) (reqs : list Requirement) :
  forallb (fun r => negb (isInfinite (estimated_time r))) reqs = true ->
  fold_left (fun sum req => add sum (num_or (estimated_time req) (num 0)))
            reqs (Fin (Qred a))
  = Fin (Qred (a + Qsum (map (fun r => hoursOf (estimated_time r)) reqs))).
Proof.
  revert a. induction reqs as [|r reqs IH]; intros a H.
  - cbn [fold_left map Qsum]. f_equal. apply Qred_complete. ring.
  - cbn [forallb] in H. apply andb_true_iff in H. destruct H as [Hr Hrest].
    cbn [fold_left map Qsum].
    assert (E : exists q', num_or (estimated_time r) (num 0) = Fin q'
                           /\ (q' == hoursOf (estimated_time r))%Q).
    { destruct (estimated_time r) as [| |q]; [|discriminate|].
      - exists (inject_Z 0). split; reflexivity.
      - apply num_or_zero. }
    destruct E as (q' & -> & Eq). cbn [add].
    rewrite Qred_plus_l, (IH _ Hrest). f_equal.
    apply Qred_complete. rewrite Eq. ring.
Qed.




(** ** Query state *)

Lemma handleFilterChange_resets_page (ft : FilterType) (value : string)
  (s : Dashboard) :
  page (pagination (handleFilterChange ft value s)) = 1
  /\ filters (handleFilterChange ft value s) = toggleFilter ft value (filters s)
  /\ searchQuery (handleFilterChange ft value s) = searchQuery s
  /\ selectedProject (handleFilterChange ft value s) = selectedProject s.
Proof. repeat split. Qed.

Lemma page_change_alone (s : Dashboard) :
  (searchQuery (nextPage s), filters (nextPage s), selectedProject (nextPage s))
  = (searchQuery s, filters s, selectedProject s)
  /\ (searchQuery (previousPage s), filters (previousPage s),
      selectedProject (previousPage s))
     = (searchQuery s, filters s, selectedProject s).
Proof. split; reflexivity. Qed.

(** The handlers of the search box and of the project select leave
    [pagination] as it is. *)
Lemma search_and_project_keep_pagination (value : string) (s : Dashboard) :
  pagination (handleSearchChange value s) = pagination s
  /\ pagination (handleProjectChange value s) = pagination s.
Proof. split; reflexivity. Qed.

(** C2. The code at the failing input: on page 2 of the results of [acme],
    typing [login] into the search box sets the search text and leaves the
    page at 2, and so does clearing the project selection; ticking a
    filter there does reset the page to 1. *)
Theorem search_change_keeps_page :
  run onPageTwo mounted = Some onPageTwoWorld
  /\ page (pagination (ui onPageTwoWorld)) = 2
  /\ option_map (fun w => (searchQuery (ui w), page (pagination (ui w))))
                (step (TypeSearch "login") onPageTwoWorld)
     = Some ("login", 2)
  /\ option_map (fun w => (selectedProject (ui w), page (pagination (ui w))))
                (step (SelectProject "") onPageTwoWorld)
     = Some (None, 2)
  /\ option_map (fun w => (f_status (filters (ui w)), page (pagination (ui w))))
                (step (ToggleFilter FStatus "Approved") onPageTwoWorld)
     = Some (["Approved"], 1).
Proof. repeat apply conj; vm_compute; reflexivity. Qed.

(** ** Timers and requests *)

(** Every query change leaves the clock and the requests alone and sets
    the timer anew. *)
Lemma query_change_schedules (e : Event) (w w' : World) :
  isQueryChange e w = true ->
  step e w = Some w' ->
  debounceTimer w' = Some (clock w + debounceDelay, queryOf (ui w'))
  /\ clock w' = clock w
  /\ listRequests w' = listRequests w
  /\ listPending w' = listPending w.
Proof.
  intros Hq Hs.
  assert (R : forall fresh s',
             listDepsChanged fresh (ui w) s' = true ->
             w' = render fresh s' w ->
             debounceTimer w' = Some (clock w + debounceDelay, queryOf (ui w'))
             /\ clock w' = clock w /\ listRequests w' = listRequests w
             /\ listPending w' = listPending w).
  { intros fresh s' Hd ->.
    destruct (render_frame fresh s' w) as (U & C & L & P).
    rewrite U, (render_schedules fresh s' w Hd). now repeat split. }
  destruct e; cbn [isQueryChange] in Hq; try discriminate; cbn [step] in Hs.
  - destruct (_ && _); [|discriminate]. injection Hs as <-.
    apply (R false (handleProjectChange value (ui w))); [|reflexivity].
    unfold listDepsChanged. now rewrite Hq.
  - destruct (_ && _); [|discriminate]. injection Hs as <-.
    apply (R false (handleSearchChange value (ui w))); [|reflexivity].
    unfold listDepsChanged. cbn [handleSearchChange setSearchQuery searchQuery].
    rewrite Hq. apply orb_true_iff. left. apply orb_true_iff. left.
    apply orb_true_r.
  - destruct (_ && _); [|discriminate]. injection Hs as <-.
    apply (R true (handleFilterChange filterType value (ui w))); [|reflexivity].
    unfold listDepsChanged. rewrite orb_true_r. reflexivity.
  - destruct (_ && _); [|discriminate]. injection Hs as <-.
    apply (R false (previousPage (ui w))); [|reflexivity].
    unfold listDepsChanged. apply orb_true_iff. right.
    cbn. apply negb_true_iff, Z.eqb_neq. lia.
  - destruct (_ && _); [|discriminate]. injection Hs as <-.
    apply (R false (nextPage (ui w))); [|reflexivity].
    unfold listDepsChanged. apply orb_true_iff. right.
    cbn. apply negb_true_iff, Z.eqb_neq. lia.
Qed.

(** Less than the debounce delay after the timer was set, it has not
    fired. *)
Lemma short_wait_keeps_timer (gap : Z) (q : Query) (w w1 : World) :
  0 <= gap < debounceDelay ->
  debounceTimer w = Some (clock w + debounceDelay, q) ->
  step (Elapse gap) w = Some w1 ->
  debounceTimer w1 = debounceTimer w
  /\ listRequests w1 = listRequests w
  /\ ui w1 = ui w.
Proof.
  intros Hg Ht Hs. cbn [step] in Hs.
  destruct (0 <=? gap); [|discriminate]. injection Hs as <-.
  unfold elapse. rewrite Ht.
  destruct (Z.leb_spec (clock w + debounceDelay) (clock w + gap)); [lia|].
  now repeat split.
Qed.

(** Once the debounce delay has passed the timer fires, and
    [fetchRequirements] issues a request unless the project of its
    closure is invalid. *)
Lemma timer_fires (ms : Z) (q : Query) (w : World) :
  debounceDelay <= ms ->
  debounceTimer w = Some (clock w + debounceDelay, q) ->
  exists w',
    step (Elapse ms) w = Some w'
    /\ debounceTimer w' = None
    /\ listRequests w'
       = (listRequests w
          ++ (if isValidProjectId (q_project q) then [q] else []))%list.
Proof.
  intros Hms Ht. cbn [step]. unfold debounceDelay in *.
  destruct (Z.leb_spec 0 ms); [|lia].
  eexists. split; [reflexivity|]. unfold elapse. rewrite Ht.
  destruct (Z.leb_spec (clock w + 500) (clock w + ms)); [|lia].
  unfold fetchRequirements.
  destruct (isValidProjectId (q_project q)); cbn; split; try reflexivity.
  now rewrite app_nil_r.
Qed.

(** During a burst of query changes no request goes out, and at its end
    the timer holds the query of the last change, due one debounce delay
    after it. *)
Lemma burst_schedules_last (rest : list (Z * Event)) (w1 wn : World) :
  debounceTimer w1 = Some (clock w1 + debounceDelay, queryOf (ui w1)) ->
  burst rest w1 = Some wn ->
  debounceTimer wn = Some (clock wn + debounceDelay, queryOf (ui wn))
  /\ listRequests wn = listRequests w1.
Proof.
  revert w1. induction rest as [|[gap e] rest IH]; intros w1 Ht Hb.
  - injection Hb as <-. now split.
  - cbn [burst] in Hb.
    destruct ((0 <=? gap) && (gap <? debounceDelay)) eqn:Hg; [|discriminate].
    apply andb_true_iff in Hg. destruct Hg as [H0 H1].
    apply Z.leb_le in H0. apply Z.ltb_lt in H1.
    destruct (step (Elapse gap) w1) as [w2|] eqn:He; [|discriminate].
    destruct (isQueryChange e w2) eqn:Hq; [|discriminate].
    destruct (step e w2) as [w3|] eqn:Hs; [|discriminate].
    destruct (short_wait_keeps_timer gap _ w1 w2 (conj H0 H1) Ht He)
      as (_ & L2 & _).
    destruct (query_change_schedules e w2 w3 Hq Hs) as (T3 & C3 & L3 & _).
    rewrite <- C3 in T3.
    destruct (IH w3 T3 Hb) as (Tn & Ln).
    split; [exact Tn|]. now rewrite Ln, L3, L2.
Qed.

(** C9, as the code has it. Every query change replaces the pending timer
    by one due [debounceDelay] = 500 milliseconds later. So after a burst
    of query changes, each less than 500 milliseconds after the one
    before, no list request has gone out, the one timer left holds the
    query of the last change, and once 500 milliseconds have passed it has
    fired: exactly one list request was issued, with the query of the last
    change, if the project of that query is valid, and none if it is
    not. *)
Theorem debounce_last_change (w0 w1 wn : World) (e1 : Event)
  (rest : list (Z * Event)) (ms : Z) :
  isQueryChange e1 w0 = true ->
  step e1 w0 = Some w1 ->
  burst rest w1 = Some wn ->
  debounceDelay <= ms ->
  debounceDelay = 500
  /\ debounceTimer w1 = Some (clock w0 + debounceDelay, queryOf (ui w1))
  /\ debounceTimer wn = Some (clock wn + debounceDelay, queryOf (ui wn))
  /\ listRequests wn = listRequests w0
  /\ exists w',
       step (Elapse ms) wn = Some w'
       /\ debounceTimer w' = None
       /\ listRequests w'
          = (listRequests w0
             ++ (if isValidProjectId (selectedProject (ui wn))
                 then [queryOf (ui wn)] else []))%list.
Proof.
  intros Hq Hs Hb Hms.
  destruct (query_change_schedules e1 w0 w1 Hq Hs) as (T0 & C1 & L1 & _).
  assert (T1 := T0). rewrite <- C1 in T1.
  destruct (burst_schedules_last rest w1 wn T1 Hb) as (Tn & Ln).
  split; [reflexivity|]. split; [exact T0|]. split; [exact Tn|].
  split; [now rewrite Ln|].
  destruct (timer_fires ms _ wn Hms Tn) as (w' & E & T' & L').
  exists w'. split; [exact E|]. split; [exact T'|].
  rewrite L', Ln, L1. reflexivity.
Qed.

(** Two ticks of a filter box 100 milliseconds apart while [acme] is
    selected: one request, with both filters. *)
Lemma debounce_two_filter_ticks :
  exists w',
    step (Elapse 500)
         (orMounted (burst [(100, ToggleFilter FPriority "High")]
            (orMounted (step (ToggleFilter FStatus "Approved")
                             firstRequestWorld))))
    = Some w'
    /\ listRequests w'
       = (listRequests firstRequestWorld
          ++ [ {| q_project := Some 1; q_search := "";
                  q_filters := {| f_type := []; f_status := ["Approved"];
                                  f_complexity := []; f_priority := ["High"] |};
                  q_page := 1 |} ])%list.
Proof.
  destruct (debounce_last_change firstRequestWorld
              (orMounted (step (ToggleFilter FStatus "Approved")
                               firstRequestWorld))
              (orMounted (burst [(100, ToggleFilter FPriority "High")]
                 (orMounted (step (ToggleFilter FStatus "Approved")
                                  firstRequestWorld))))
              (ToggleFilter FStatus "Approved")
              [(100, ToggleFilter FPriority "High")] 500
              ltac:(vm_compute; reflexivity) ltac:(vm_compute; reflexivity)
              ltac:(vm_compute; reflexivity) ltac:(unfold debounceDelay; lia))
    as (_ & _ & _ & _ & w' & E & _ & L).
  exists w'. split; [exact E | exact L].
Defined.

(** C9, as the specification words it, fails: when the last change of the
    burst clears the project selection, the timer fires and
    [fetchRequirements] returns before the request. With the projects
    loaded, [acme] is selected and 100 milliseconds later the selection is
    cleared; after the quiet period no list request has gone out. *)
Lemma debounce_without_request : ~ debounceAlwaysRequests.
Proof.
  intros H.
  specialize (H projectsLoadedWorld
                (orMounted (step (SelectProject "1") projectsLoadedWorld))
                (orMounted (run (acmeSelected ++ [Elapse 100; SelectProject ""])
                                mounted))
                (orMounted (run (acmeSelected
                                 ++ [Elapse 100; SelectProject ""; Elapse 500])
                                mounted))
                (SelectProject "1") [(100, SelectProject "")] 500).
  assert (R : reachable projectsLoadedWorld).
  { exists [ProjectsSettled (Some [acme])]. vm_compute. reflexivity. }
  specialize (H R ltac:(vm_compute; reflexivity) ltac:(vm_compute; reflexivity)
                ltac:(vm_compute; reflexivity) ltac:(unfold debounceDelay; lia)
                ltac:(vm_compute; reflexivity)).
  vm_compute in H. discriminate H.
Qed.

(** ** One request at a time *)

(** A render in which no dependency of the list effect changed leaves the
    timer alone. *)
Lemma render_keeps_timer (fresh : bool) (s' : Dashboard) (w : World) :
  listDepsChanged fresh (ui w) s' = false ->
  debounceTimer (render fresh s' w) = debounceTimer w.
Proof.
  intros H. unfold render. rewrite H.
  destruct (sameProject _ _); cbn; [reflexivity|].
  now destruct (fetchOverallStats_frame s' (setUi s' w)) as (_ & _ & T & _).
Qed.

(** A render that changes neither [loading] nor the outstanding requests,
    and no dependency of the list effect while [loading] is set. *)
Lemma render_singleFlight (fresh : bool) (s' : Dashboard) (w0 w : World) :
  ui w0 = ui w ->
  debounceTimer w0 = debounceTimer w ->
  listRequests w0 = listRequests w ->
  listPending w0 = listPending w ->
  loading s' = loading (ui w) ->
  (loading (ui w) = true -> listDepsChanged fresh (ui w) s' = false) ->
  singleFlight w ->
  singleFlight (render fresh s' w0).
Proof.
  intros U T L P Hl Hd. unfold singleFlight.
  destruct (render_frame fresh s' w0) as (U' & _ & L' & P').
  rewrite P', U', P, L', L, Hl.
  destruct (listPending w) as [|id [|id' rest]]; [easy | | easy].
  intros (Ht & Hn & Hs). split; [exact Ht|]. split; [|exact Hs].
  rewrite render_keeps_timer; [now rewrite T|]. rewrite U. now apply Hd.
Qed.

Lemma step_singleFlight (e : Event) (w w' : World) :
  singleFlight w ->
  awaitsResponse e w = true ->
  step e w = Some w' ->
  singleFlight w'.
Proof.
  intros Hsf Ha Hs.
  assert (Hidle : loading (ui w) = false ->
                  forall fresh s', loading s' = false ->
                    singleFlight (render fresh s' w)).
  { intros Hl fresh s' Hl'.
    apply (render_singleFlight fresh s' w w); try reflexivity; try exact Hsf.
    - now rewrite Hl, Hl'.
    - rewrite Hl. discriminate. }
  destruct e; cbn [step] in Hs.
  - (* the projects arrive *)
    destruct (projectsPending w); [|discriminate]. injection Hs as <-.
    apply (render_singleFlight false _ _ w); try reflexivity; try exact Hsf.
    + now destruct r.
    + intros _. unfold listDepsChanged. destruct r; cbn;
        now rewrite ?String.eqb_refl, ?Z.eqb_refl;
        destruct (selectedProject (ui w)); cbn; rewrite ?Z.eqb_refl.
  - destruct (loading (ui w)) eqn:Hl; [discriminate|].
    destruct (arrIncludes _ _); [|discriminate]. injection Hs as <-.
    now apply Hidle.
  - destruct (isValidProjectId _); [|discriminate].
    destruct (loading (ui w)) eqn:Hl; [discriminate|]. injection Hs as <-.
    now apply Hidle.
  - cbn [awaitsResponse] in Ha. apply negb_true_iff in Ha.
    destruct (_ && _); [|discriminate]. injection Hs as <-.
    now apply Hidle.
  - destruct (isValidProjectId _); [|discriminate].
    destruct (loading (ui w)) eqn:Hl; [discriminate|].
    destruct (_ && _); [|discriminate]. injection Hs as <-.
    now apply Hidle.
  - destruct (isValidProjectId _); [|discriminate].
    destruct (loading (ui w)) eqn:Hl; [discriminate|].
    destruct (_ && _); [|discriminate]. injection Hs as <-.
    now apply Hidle.
  - destruct (clickExport (ui w)); injection Hs as <-; exact Hsf.
  - (* time passes *)
    destruct (0 <=? ms); [|discriminate]. injection Hs as <-.
    unfold singleFlight in *. unfold elapse.
    destruct (debounceTimer w) as [[deadline q]|] eqn:Ht.
    + destruct (listPending w) as [|id [|id' rest]] eqn:Hp;
        [| now destruct Hsf as (_ & ? & _) | easy].
      destruct (deadline <=? clock w + ms); [|now cbn; rewrite Hp, ?Ht].
      unfold fetchRequirements.
      destruct (isValidProjectId (q_project q)); cbn; rewrite Hp;
        [|exact Hsf].
      split; [reflexivity|]. split; [reflexivity|].
      rewrite length_app. cbn. lia.
    + cbn. rewrite ?Ht. exact Hsf.
  - (* a list request settles *)
    destruct (isPending id (listPending w)) eqn:Hp; [|discriminate].
    injection Hs as <-. unfold singleFlight in *.
    destruct (render_frame false (fetchRequirementsSettled r (ui w))
                (setList (listRequests w) (dropPending id (listPending w)) w))
      as (U & _ & _ & P).
    rewrite P, U. cbn [listPending setList].
    destruct (listPending w) as [|id0 [|id' rest]]; [discriminate | | easy].
    unfold isPending in Hp. cbn in Hp. rewrite orb_false_r in Hp.
    unfold dropPending. cbn. rewrite Hp. cbn. now destruct r.
  - (* a stats request settles *)
    destruct (isPending id (statsPending w)); [|discriminate].
    injection Hs as <-.
    apply (render_singleFlight false _ _ w); try reflexivity; try exact Hsf.
    + now destruct r.
    + intros _. unfold listDepsChanged. destruct r; cbn;
        now rewrite ?String.eqb_refl, ?Z.eqb_refl;
        destruct (selectedProject (ui w)); cbn; rewrite ?Z.eqb_refl.
Qed.

Lemma runAwaiting_singleFlight (events : list Event) (w w' : World) :
  singleFlight w ->
  runAwaiting events w = Some w' ->
  singleFlight w'.
Proof.
  revert w. induction events as [|e events IH]; intros w Hsf Hr.
  - now injection Hr as <-.
  - cbn [runAwaiting] in Hr.
    destruct (awaitsResponse e w) eqn:Ha; [|discriminate].
    destruct (step e w) as [w1|] eqn:Hs; [|discriminate].
    exact (IH w1 (step_singleFlight e w w1 Hsf Ha Hs) Hr).
Qed.

(** ** Late responses *)

Lemma isPending_dropPending (id id' : nat) (pending : list nat) :
  id <> id' ->
  isPending id (dropPending id' pending) = isPending id pending.
Proof.
  intros Hne. unfold isPending, dropPending.
  induction pending as [|i pending IH]; [reflexivity|].
  cbn [filter existsb].
  destruct (Nat.eqb_spec id' i) as [->|Hi]; cbn [negb existsb].
  - rewrite IH. destruct (Nat.eqb_spec id i); [contradiction | reflexivity].
  - now rewrite IH.
Qed.

(** Nothing cancels a request that has been issued: whatever happens,
    short of its own response, it stays outstanding. *)
Lemma pending_until_settled (e : Event) (w w1 : World) (id : nat) :
  isPending id (listPending w) = true ->
  step e w = Some w1 ->
  (forall r, e <> ListSettled id r) ->
  isPending id (listPending w1) = true.
Proof.
  intros Hp Hs Hne.
  assert (R : forall fresh s' w0,
             listPending w0 = listPending w ->
             isPending id (listPending (render fresh s' w0)) = true).
  { intros fresh s' w0 E.
    destruct (render_frame fresh s' w0) as (_ & _ & _ & P). now rewrite P, E. }
  destruct e; cbn [step] in Hs.
  - destruct (projectsPending w); [|discriminate]. injection Hs as <-.
    now apply R.
  - destruct (_ && _); [|discriminate]. injection Hs as <-. now apply R.
  - destruct (_ && _); [|discriminate]. injection Hs as <-. now apply R.
  - destruct (_ && _); [|discriminate]. injection Hs as <-. now apply R.
  - destruct (_ && _); [|discriminate]. injection Hs as <-. now apply R.
  - destruct (_ && _); [|discriminate]. injection Hs as <-. now apply R.
  - destruct (clickExport (ui w)); injection Hs as <-; exact Hp.
  - destruct (0 <=? ms); [|discriminate]. injection Hs as <-.
    unfold elapse. destruct (debounceTimer w) as [[deadline q]|]; [|exact Hp].
    destruct (deadline <=? clock w + ms); [|exact Hp].
    unfold fetchRequirements.
    destruct (isValidProjectId (q_project q)); cbn; [|exact Hp].
    unfold isPending in Hp. rewrite Hp. apply orb_true_r.
  - destruct (isPending id0 (listPending w)); [|discriminate].
    injection Hs as <-.
    destruct (render_frame false (fetchRequirementsSettled r (ui w))
                (setList (listRequests w) (dropPending id0 (listPending w)) w))
      as (_ & _ & _ & P).
    rewrite P. cbn [listPending setList].
    rewrite isPending_dropPending; [exact Hp|].
    intros ->. now apply (Hne r).
  - destruct (isPending id0 (statsPending w)); [|discriminate].
    injection Hs as <-. now apply R.
Qed.

(** C1, as the code has it. No response is discarded: a list request
    that has been issued stays outstanding through every later event, among
    them query changes and the issue and the answer of other requests,
    until its own response arrives, and that response is then applied: the
    displayed requirements, filtered stats and pagination become those of
    this response (a failure empties the list). What keeps late responses
    away is that requests do not overlap: the search box and the project
    select are disabled and the pagination controls are not rendered while
    a request is under way, so in every run in which no filter box is
    ticked during a request at most one list request is outstanding, and
    it is the one issued last. *)
Theorem response_applied_on_arrival :
  (forall (w : World) (id : nat) (r : ListResult),
     isPending id (listPending w) = true ->
     exists w',
       step (ListSettled id r) w = Some w'
       /\ ui w' = fetchRequirementsSettled r (ui w)
       /\ displayed (ui w')
          = match r with
            | ListResolved data =>
                let reqs := match d_requirements data with
                            | Some l => l | None => [] end in
                (reqs, newFilteredStats reqs,
                 {| page := int_or (d_page data) 1;
                    pages := int_or (d_pages data) 1;
                    pg_total := int_or (d_total data) 0 |})
            | ListRejected _ => ([], filteredStats (ui w), pagination (ui w))
            end)
  /\ (forall (w w1 : World) (id : nat) (e : Event),
        isPending id (listPending w) = true ->
        step e w = Some w1 ->
        (forall r, e <> ListSettled id r) ->
        isPending id (listPending w1) = true)
  /\ (forall (events : list Event) (w : World),
        runAwaiting events mounted = Some w ->
        singleFlight w
        /\ (forall id, isPending id (listPending w) = true ->
              S id = List.length (listRequests w))).
Proof.
  split; [|split].
  - intros w id r H. cbn [step]. rewrite H. eexists. split; [reflexivity|].
    rewrite (proj1 (render_frame _ _ _)).
    split; [reflexivity|]. now destruct r.
  - intros w w1 id e H Hs Hne. exact (pending_until_settled e w w1 id H Hs Hne).
  - intros events w Hr.
    assert (Hsf : singleFlight w).
    { apply (runAwaiting_singleFlight events mounted w); [reflexivity|].
      exact Hr. }
    split; [exact Hsf|]. intros id Hp. unfold singleFlight in Hsf.
    destruct (listPending w) as [|id0 [|id' rest]]; [discriminate | | easy].
    unfold isPending in Hp. cbn in Hp. rewrite orb_false_r in Hp.
    apply Nat.eqb_eq in Hp. subst id0. now destruct Hsf as (_ & _ & ?).
Qed.

(** The answer to the first request arrives after the second request was
    issued and answered, and is displayed; before the filter box was ticked
    the first request was the only one outstanding. *)
Lemma late_answer_displayed :
  (exists w',
     step (ListSettled 0 lateAnswer) overtakenWorld = Some w'
     /\ requirements (ui w') = [withHours (num 8); greeting])
  /\ singleFlight firstRequestWorld.
Proof.
  destruct response_applied_on_arrival as (Applied & _ & Single).
  split.
  - destruct (Applied overtakenWorld 0%nat lateAnswer
                ltac:(vm_compute; reflexivity))
      as (w' & E & U & _).
    exists w'. split; [exact E|]. rewrite U. vm_compute. reflexivity.
  - apply (Single firstRequest firstRequestWorld).
    vm_compute. reflexivity.
Defined.

(** C1, as the specification words it, fails. The first request for
    [acme] is under way when the user ticks the [Approved] filter; the
    second request goes out 500 milliseconds later and is answered with
    one requirement. Then the answer to the first request arrives, with
    two requirements, and replaces the list, the stats and the
    pagination. *)
Lemma stale_response_overwrites : ~ staleResponsesIgnored.
Proof.
  intros H.
  assert (R : reachable overtakenWorld)
    by (exists overtaken; vm_compute; reflexivity).
  specialize (H overtakenWorld
                (orMounted (step (ListSettled 0 lateAnswer) overtakenWorld))
                0%nat 1%nat lateAnswer R).
  assert (L : (0 < 1 < List.length (listRequests overtakenWorld))%nat)
    by (vm_compute; lia).
  specialize (H L ltac:(vm_compute; reflexivity)).
  vm_compute in H. discriminate H.
Qed.

(** * Further properties of the dashboard *)

From Stdlib Require DecimalN.

(** ** Runs *)

(** What holds right after mounting and is kept by every event holds in
    every state the component can reach. *)
Lemma run_invariant (P : World -> Prop) :
  (forall e w w', P w -> step e w = Some w' -> P w') ->
  forall events w w', P w -> run events w = Some w' -> P w'.
Proof.
  intros Hstep events. induction events as [|e events IH]; intros w w' Hw Hr.
  - now injection Hr as <-.
  - cbn [run] in Hr. destruct (step e w) as [w1|] eqn:Hs; [|discriminate].
    exact (IH w1 w' (Hstep e w w1 Hw Hs) Hr).
Qed.

Lemma reachable_invariant (P : World -> Prop) :
  P mounted ->
  (forall e w w', P w -> step e w = Some w' -> P w') ->
  forall w, reachable w -> P w.
Proof.
  intros H0 Hstep w [events Hr].
  exact (run_invariant P Hstep events mounted w H0 Hr).
Qed.

(** Splits [step e w = Some w'] into the cases of [e] whose guard holds. *)
Ltac step_cases Hs :=
  cbn [step] in Hs;
  repeat match type of Hs with
    | (if ?c then _ else _) = Some _ =>
        let G := fresh "Guard" in destruct c eqn:G; [|discriminate Hs]
    | match clickExport ?s with _ => _ end = Some _ =>
        destruct (clickExport s)
    end;
  injection Hs as <-.

(** The component state after an event. *)
Lemma step_ui (e : Event) (w w' : World) :
  step e w = Some w' ->
  ui w' = match e with
          | ProjectsSettled r => fetchProjectsSettled r (ui w)
          | SelectProject value => handleProjectChange value (ui w)
          | TypeSearch value => handleSearchChange value (ui w)
          | ToggleFilter ft value => handleFilterChange ft value (ui w)
          | ClickPrevious => previousPage (ui w)
          | ClickNext => nextPage (ui w)
          | ClickExport => ui w
          | Elapse ms => ui (elapse ms w)
          | ListSettled _ r => fetchRequirementsSettled r (ui w)
          | StatsSettled _ r => fetchOverallStatsSettled r (ui w)
          end.
Proof.
  intros Hs. destruct e; step_cases Hs;
    try apply (proj1 (render_frame _ _ _)); reflexivity.
Qed.

(** When time passes the component state stays, or a list fetch starts. *)
Lemma elapse_ui (ms : Z) (w : World) :
  ui (elapse ms w) = ui w
  \/ ui (elapse ms w) = setError "" (setLoading true (ui w)).
Proof.
  unfold elapse. destruct (debounceTimer w) as [[deadline q]|]; [|now left].
  destruct (deadline <=? clock w + ms); [|now left].
  unfold fetchRequirements.
  destruct (isValidProjectId (q_project q)); [now right | now left].
Qed.

(** ** Filters *)

Lemma arrIncludes_In (arr : list string) (value : string) :
  arrIncludes arr value = true <-> In value arr.
Proof.
  unfold arrIncludes. rewrite existsb_exists. split.
  - intros (x & Hx & E). apply String.eqb_eq in E. now subst.
  - intros H. exists value. split; [exact H | apply String.eqb_refl].
Qed.

Lemma getFilter_putFilter (ft ft' : FilterType) (v : list string) (f : Filters) :
  getFilter ft' (putFilter ft v f)
  = if match ft, ft' with
       | FType, FType | FStatus, FStatus | FComplexity, FComplexity
       | FPriority, FPriority => true
       | _, _ => false
       end
    then v else getFilter ft' f.
Proof. destruct ft, ft'; reflexivity. Qed.

Lemma getFilter_toggleFilter (ft : FilterType) (value : string) (f : Filters) :
  getFilter ft (toggleFilter ft value f)
  = if arrIncludes (getFilter ft f) value
    then filter (fun x => negb (String.eqb x value)) (getFilter ft f)
    else (getFilter ft f ++ [value])%list.
Proof. unfold toggleFilter. rewrite getFilter_putFilter. now destruct ft. Qed.

Lemma putFilter_getFilter (ft : FilterType) (f : Filters) :
  putFilter ft (getFilter ft f) f = f.
Proof. destruct f, ft; reflexivity. Qed.

Lemma putFilter_putFilter (ft : FilterType) (u v : list string) (f : Filters) :
  putFilter ft u (putFilter ft v f) = putFilter ft u f.
Proof. destruct ft; reflexivity. Qed.

Lemma toggleFilter_as_put (ft : FilterType) (value : string) (g : Filters) :
  toggleFilter ft value g
  = putFilter ft (getFilter ft (toggleFilter ft value g)) g.
Proof.
  unfold toggleFilter. rewrite getFilter_putFilter. now destruct ft.
Qed.

Lemma filter_out_absent (value : string) (l : list string) :
  ~ In value l ->
  filter (fun x => negb (String.eqb x value)) l = l.
Proof.
  intros H. induction l as [|x l IH]; [reflexivity|]. cbn [filter].
  destruct (String.eqb_spec x value) as [->|_]; cbn [negb].
  - exfalso. apply H. now left.
  - rewrite IH; [reflexivity|]. intros Hin. apply H. now right.
Qed.

Lemma In_filter_out (value x : string) (l : list string) :
  In x (filter (fun y => negb (String.eqb y value)) l)
  <-> In x l /\ x <> value.
Proof.
  rewrite filter_In. split; intros [Hin H]; split; try exact Hin.
  - apply negb_true_iff in H. now apply String.eqb_neq.
  - apply negb_true_iff. now apply String.eqb_neq.
Qed.

(** X1. Ticking a filter box is a symmetric difference on the values
    selected for its filter type: a selected value is taken out, wherever
    and however often it occurs, a value that is not selected is added,
    every other value stays, and the other filter types are left alone. *)
Theorem toggleFilter_symmetric_difference (ft : FilterType) (value : string)
  (f : Filters) :
  (forall x,
     In x (getFilter ft (toggleFilter ft value f))
     <-> (In x (getFilter ft f) /\ x <> value)
         \/ (x = value /\ ~ In value (getFilter ft f)))
  /\ (forall ft', ft' <> ft ->
        getFilter ft' (toggleFilter ft value f) = getFilter ft' f).
Proof.
  split.
  - intros x. rewrite getFilter_toggleFilter.
    destruct (arrIncludes (getFilter ft f) value) eqn:E.
    + apply arrIncludes_In in E. rewrite In_filter_out. tauto.
    + assert (N : ~ In value (getFilter ft f)).
      { intros H. apply arrIncludes_In in H. congruence. }
      rewrite in_app_iff. cbn [In]. split.
      * intros [H|[<-|[]]]; [left | now right].
        split; [exact H|]. intros ->. contradiction.
      * intros [[H _]|[-> _]]; [now left | right; now left].
  - intros ft' Hne. unfold toggleFilter. rewrite getFilter_putFilter.
    destruct ft, ft'; try reflexivity; contradiction.
Qed.

Lemma toggleFilter_other_example :
  getFilter FPriority (toggleFilter FStatus "Draft" noFilters) = [].
Proof.
  apply (toggleFilter_symmetric_difference FStatus "Draft" noFilters).
  discriminate.
Defined.

(** X2. Ticking the same box twice restores the selection of every filter
    type as a set. It restores the filters themselves when the value was
    not selected before; a value that was selected comes back at the end
    of its list, so the order in which the values are sent may change. *)
Theorem toggleFilter_twice_restores (ft : FilterType) (value : string)
  (f : Filters) :
  (forall ft' x,
     In x (getFilter ft' (toggleFilter ft value (toggleFilter ft value f)))
     <-> In x (getFilter ft' f))
  /\ (~ In value (getFilter ft f) ->
      toggleFilter ft value (toggleFilter ft value f) = f)
  /\ (In value (getFilter ft f) ->
      getFilter ft (toggleFilter ft value (toggleFilter ft value f))
      = (filter (fun x => negb (String.eqb x value)) (getFilter ft f)
         ++ [value])%list).
Proof.
  assert (Twice :
    getFilter ft (toggleFilter ft value (toggleFilter ft value f))
    = if arrIncludes (getFilter ft f) value
      then (filter (fun x => negb (String.eqb x value)) (getFilter ft f)
            ++ [value])%list
      else getFilter ft f).
  { rewrite !getFilter_toggleFilter.
    destruct (arrIncludes (getFilter ft f) value) eqn:E.
    - assert (N : arrIncludes
                    (filter (fun x => negb (String.eqb x value))
                            (getFilter ft f)) value = false).
      { destruct (arrIncludes (filter _ _) value) eqn:E'; [|reflexivity].
        apply arrIncludes_In, In_filter_out in E'. now destruct E'. }
      now rewrite N.
    - assert (Y : arrIncludes (getFilter ft f ++ [value]) value = true).
      { apply arrIncludes_In, in_app_iff. right. now left. }
      rewrite Y, filter_app. cbn [filter]. rewrite String.eqb_refl.
      cbn [negb]. rewrite app_nil_r. apply filter_out_absent.
      intros H. apply arrIncludes_In in H. congruence. }
  split; [|split].
  - intros ft' x.
    assert (D : ft' = ft \/ ft' <> ft) by (destruct ft, ft'; auto; now right).
    destruct D as [->|Hne].
    + rewrite Twice. destruct (arrIncludes (getFilter ft f) value) eqn:E;
        [|reflexivity].
      apply arrIncludes_In in E. rewrite in_app_iff, In_filter_out.
      cbn [In]. split.
      * intros [[H _]|[<-|[]]]; assumption.
      * intros H. destruct (String.eqb_spec x value) as [->|Hx];
          [right; now left | left; now split].
    + unfold toggleFilter. rewrite !getFilter_putFilter.
      destruct ft, ft'; try reflexivity; contradiction.
  - intros N.
    assert (E : arrIncludes (getFilter ft f) value = false).
    { destruct (arrIncludes (getFilter ft f) value) eqn:E; [|reflexivity].
      apply arrIncludes_In in E. contradiction. }
    rewrite E in Twice.
    rewrite (toggleFilter_as_put ft value (toggleFilter ft value f)), Twice.
    unfold toggleFilter. now rewrite putFilter_putFilter, putFilter_getFilter.
  - intros H. apply arrIncludes_In in H. now rewrite Twice, H.
Qed.

Lemma toggleFilter_twice_example :
  toggleFilter FStatus "Draft" (toggleFilter FStatus "Draft" noFilters)
  = noFilters.
Proof.
  apply (toggleFilter_twice_restores FStatus "Draft" noFilters).
  intros [].
Defined.

(** ** Printing and reading integers *)

Lemma digit_run_acc (d : Decimal.uint) (acc : positive) :
  digit_run (Some (Zpos acc)) (NilEmpty.string_of_uint d)
  = Some (Zpos (Pos.of_uint_acc d acc)).
Proof.
  revert acc. induction d; intros acc;
    cbn [NilEmpty.string_of_uint digit_run Pos.of_uint_acc];
    [reflexivity|..];
    match goal with
    | |- context [digit_val ?c] =>
        let v := eval vm_compute in (digit_val c) in
        change (digit_val c) with v; cbv iota
    end;
    rewrite <- IHd; f_equal; f_equal; lia.
Qed.

Lemma digit_run_zero (d : Decimal.uint) :
  digit_run (Some 0) (NilEmpty.string_of_uint d)
  = Some (Z.of_N (Pos.of_uint d)).
Proof.
  induction d; cbn [NilEmpty.string_of_uint digit_run Pos.of_uint];
    [reflexivity|..];
    match goal with
    | |- context [digit_val ?c] =>
        let v := eval vm_compute in (digit_val c) in
        change (digit_val c) with v; cbv iota
    end;
    [exact IHd|..]; cbn [Z.mul Z.add Z.of_N]; apply digit_run_acc.
Qed.

Lemma parseInt10_uint (d : Decimal.uint) :
  d <> Decimal.Nil ->
  parseInt10 (NilEmpty.string_of_uint d) = Some (Z.of_N (Pos.of_uint d))
  /\ digit_run None (NilEmpty.string_of_uint d)
     = Some (Z.of_N (Pos.of_uint d)).
Proof.
  intros Hd. rewrite <- digit_run_zero.
  destruct d; [contradiction|..]; split; reflexivity.
Qed.

Lemma digits_uint (n : Z) :
  0 <= n ->
  exists d, d <> Decimal.Nil
            /\ digits n = NilEmpty.string_of_uint d
            /\ Z.of_N (Pos.of_uint d) = n.
Proof.
  intros Hn. unfold digits. exists (N.to_uint (Z.to_N n)).
  assert (V : Z.of_N (Pos.of_uint (N.to_uint (Z.to_N n))) = n).
  { change (Pos.of_uint (N.to_uint (Z.to_N n)))
      with (N.of_uint (N.to_uint (Z.to_N n))).
    rewrite DecimalN.Unsigned.of_to. now apply Z2N.id. }
  assert (D : N.to_uint (Z.to_N n) <> Decimal.Nil).
  { destruct (Z.to_N n) as [|p] eqn:E; [discriminate|].
    intros Hnil. cbn [Z.of_N] in V. rewrite Hnil in V. cbn in V. lia. }
  split; [exact D|]. split; [|exact V].
  unfold NilZero.string_of_uint.
  destruct (N.to_uint (Z.to_N n)); [contradiction|reflexivity..].
Qed.

Lemma Qred_inject_Z (z : Z) : Qred (inject_Z z) = inject_Z z.
Proof.
  unfold Qred, inject_Z.
  pose proof (Z.ggcd_gcd z 1) as G.
  pose proof (Z.ggcd_correct_divisors z 1) as C.
  destruct (Z.ggcd z 1) as (g, (aa, bb)). cbn [fst] in G.
  rewrite Z.gcd_1_r in G. subst g. destruct C as [Ca Cb].
  replace aa with z by lia. replace bb with 1 by lia. reflexivity.
Qed.

Lemma toString_num (z : Z) :
  toString (num z) = (if z <? 0 then "-" else "") ++ digits (Z.abs z).
Proof.
  unfold toString, num. rewrite Qred_inject_Z. unfold inject_Z, Qsign.
  cbn [Qnum Qden]. rewrite Z.mod_1_r, Z.div_1_r.
  cbn [frac_digits Z.eqb String.eqb]. rewrite append_empty_r.
  now destruct z.
Qed.

(** Reading back what [String] printed for an integer gives the integer. *)
Lemma parseInt10_toString (z : Z) : parseInt10 (toString (num z)) = Some z.
Proof.
  rewrite toString_num.
  destruct (digits_uint (Z.abs z) (Z.abs_nonneg z)) as (d & Hd & E & V).
  rewrite E. destruct (parseInt10_uint d Hd) as [P R].
  destruct (Z.ltb_spec z 0) as [Hneg|Hpos]; cbn [append].
  - unfold parseInt10. cbn. rewrite R. cbn [option_map]. f_equal. lia.
  - rewrite P. f_equal. lia.
Qed.

(** X3. In every state the component can reach, the values selected for
    a filter type are among the boxes of that type and none is selected
    twice, so the list request never repeats a filter value. *)
Theorem filters_within_options (w : World) :
  reachable w ->
  forall ft,
    NoDup (getFilter ft (filters (ui w)))
    /\ incl (getFilter ft (filters (ui w))) (filterOptions ft).
Proof.
  apply (reachable_invariant
           (fun w => forall ft,
              NoDup (getFilter ft (filters (ui w)))
              /\ incl (getFilter ft (filters (ui w))) (filterOptions ft))).
  - intros ft. destruct ft; split; try apply NoDup_nil; intros x [].
  - intros e w0 w' IH Hs ft'. pose proof (step_ui e w0 w' Hs) as U.
    destruct e; rewrite U; try exact (IH ft');
      try (destruct r; exact (IH ft')).
    + (* a filter box is ticked *)
      cbn [step] in Hs.
      destruct (isValidProjectId _ && arrIncludes _ _) eqn:G; [|discriminate].
      apply andb_true_iff in G. destruct G as [_ G].
      apply arrIncludes_In in G.
      cbn [handleFilterChange filters setFilters setPagination].
      destruct (IH ft') as [Hnd Hin].
      assert (D : ft' = filterType \/ ft' <> filterType)
        by (destruct filterType, ft'; auto; now right).
      destruct D as [->|Hne].
      * rewrite getFilter_toggleFilter.
        destruct (arrIncludes (getFilter filterType (filters (ui w0))) value)
          eqn:E.
        -- split; [now apply NoDup_filter|].
           intros x Hx. apply In_filter_out in Hx. now apply Hin.
        -- split.
           ++ apply NoDup_app; [exact Hnd | repeat constructor; intros [] |].
              intros a Ha [<-|[]]. apply arrIncludes_In in Ha. congruence.
           ++ intros x Hx. apply in_app_iff in Hx.
              destruct Hx as [Hx|[<-|[]]]; [now apply Hin | exact G].
      * unfold toggleFilter. rewrite getFilter_putFilter.
        destruct filterType, ft'; try exact (conj Hnd Hin); contradiction.
    + (* time passes *)
      destruct (elapse_ui ms w0) as [-> | ->]; exact (IH ft').
Qed.

Lemma filters_within_options_example :
  NoDup (getFilter FStatus (filters (ui overtakenWorld)))
  /\ incl (getFilter FStatus (filters (ui overtakenWorld)))
          (filterOptions FStatus).
Proof.
  apply (filters_within_options overtakenWorld).
  exists overtaken. vm_compute. reflexivity.
Defined.

(** ** The selected project *)

Lemma handleProjectChange_parse (value : string) (s : Dashboard) :
  selectedProject (handleProjectChange value s)
  = match parseInt10 value with
    | Some n => if 0 <? n then Some n else None
    | None => None
    end.
Proof.
  unfold handleProjectChange. cbn [selectedProject setSelectedProject].
  destruct (String.eqb_spec value "") as [->|_]; [reflexivity|].
  now destruct (parseInt10 value).
Qed.

Lemma find_project (id : Z) (p : Project) (l : list Project) :
  In p l -> proj_id p = id ->
  exists p', find (fun x => proj_id x =? id) l = Some p'
             /\ proj_id p' = id /\ In p' l.
Proof.
  intros Hin Hid.
  destruct (find (fun x => proj_id x =? id) l) as [p'|] eqn:F.
  - exists p'. apply find_some in F. destruct F as [F1 F2].
    apply Z.eqb_eq in F2. now repeat split.
  - exfalso. apply (find_none _ _ F) in Hin. cbn in Hin.
    apply Z.eqb_neq in Hin. contradiction.
Qed.



Lemma render_others (fresh : bool) (s' : Dashboard) (w : World) :
  projectsPending (render fresh s' w) = projectsPending w
  /\ downloads (render fresh s' w) = downloads w
  /\ (statsRequests (render fresh s' w) = statsRequests w
      \/ exists id, 0 < id /\ selectedProject s' = Some id
                    /\ statsRequests (render fresh s' w)
                       = (statsRequests w ++ [id])%list).
Proof.
  unfold render, fetchOverallStats.
  destruct (sameProject _ _), (listDepsChanged _ _ _); cbn;
    try (now repeat split; left);
    destruct (selectedProject s') as [id|] eqn:E; cbn;
    try (now repeat split; left);
    destruct (Z.ltb_spec 0 id); cbn; try (now repeat split; left);
    (repeat split; right; exists id; now repeat split).
Qed.

Lemma elapse_others (ms : Z) (w : World) :
  projectsPending (elapse ms w) = projectsPending w
  /\ downloads (elapse ms w) = downloads w
  /\ statsRequests (elapse ms w) = statsRequests w
  /\ (listRequests (elapse ms w) = listRequests w
      \/ exists deadline q,
           debounceTimer w = Some (deadline, q)
           /\ isValidProjectId (q_project q) = true
           /\ listRequests (elapse ms w) = (listRequests w ++ [q])%list).
Proof.
  unfold elapse. destruct (debounceTimer w) as [[deadline q]|] eqn:T;
    [|now repeat split; left].
  destruct (deadline <=? clock w + ms); [|now repeat split; left].
  unfold fetchRequirements.
  destruct (isValidProjectId (q_project q)) eqn:V; cbn;
    [|now repeat split; left].
  repeat split. right. exists deadline, q. now repeat split.
Qed.

Lemma step_projectsPending (e : Event) (w w' : World) :
  step e w = Some w' ->
  projectsPending w'
  = match e with ProjectsSettled _ => false | _ => projectsPending w end.
Proof.
  intros Hs. destruct e; step_cases Hs;
    try (rewrite (proj1 (render_others _ _ _)); reflexivity);
    try reflexivity.
  apply (elapse_others ms w).
Qed.



(** X6. No request goes out for an invalid project: in every state the
    component can reach, every list request that was issued carries a
    positive project id, and so does every stats request. *)
Theorem requests_carry_valid_project (w : World) :
  reachable w ->
  Forall (fun q => isValidProjectId (q_project q) = true) (listRequests w)
  /\ Forall (fun id => 0 < id) (statsRequests w).
Proof.
  apply (reachable_invariant
           (fun w =>
              Forall (fun q => isValidProjectId (q_project q) = true)
                     (listRequests w)
              /\ Forall (fun id => 0 < id) (statsRequests w))).
  - split; constructor.
  - intros e w0 w' [HL HS] Hs.
    assert (R : forall fresh s' w1,
               listRequests w1 = listRequests w0 ->
               statsRequests w1 = statsRequests w0 ->
               Forall (fun q => isValidProjectId (q_project q) = true)
                      (listRequests (render fresh s' w1))
               /\ Forall (fun id => 0 < id)
                         (statsRequests (render fresh s' w1))).
    { intros fresh s' w1 E1 E2.
      destruct (render_frame fresh s' w1) as (_ & _ & L & _).
      destruct (render_others fresh s' w1) as (_ & _ & S).
      rewrite L, E1. split; [exact HL|].
      destruct S as [-> | (id & Hpos & _ & ->)]; rewrite E2; [exact HS|].
      apply Forall_app. split; [exact HS | now repeat constructor]. }
    destruct e; step_cases Hs; try (now apply R); try (now split).
    destruct (elapse_others ms w0) as (_ & _ & S & L). rewrite S.
    split; [|exact HS].
    destruct L as [-> | (deadline & q & _ & V & ->)]; [exact HL|].
    apply Forall_app. split; [exact HL | now repeat constructor].
Qed.

Lemma requests_carry_valid_project_example :
  Forall (fun q => isValidProjectId (q_project q) = true)
         (listRequests overtakenWorld)
  /\ Forall (fun id => 0 < id) (statsRequests overtakenWorld).
Proof.
  apply (requests_carry_valid_project overtakenWorld).
  exists overtaken. vm_compute. reflexivity.
Defined.

(** ** The pending fetch *)

Lemma render_timer (fresh : bool) (s' : Dashboard) (w : World) :
  debounceTimer (render fresh s' w)
  = if listDepsChanged fresh (ui w) s'
    then Some (clock w + debounceDelay, queryOf s')
    else debounceTimer w.
Proof.
  destruct (listDepsChanged fresh (ui w) s') eqn:E.
  - now apply render_schedules.
  - now apply render_keeps_timer.
Qed.

Lemma sameProject_eq (a b : option Z) : sameProject a b = true -> a = b.
Proof.
  destruct a, b; cbn; try discriminate; try reflexivity.
  intros H. apply Z.eqb_eq in H. now subst.
Qed.

(** When no dependency of the list effect changed, the query is the
    same. *)
Lemma same_deps_same_query (s s' : Dashboard) :
  listDepsChanged false s s' = false ->
  filters s' = filters s ->
  queryOf s' = queryOf s.
Proof.
  unfold listDepsChanged. intros H F.
  rewrite !orb_false_iff in H. destruct H as [[[Hp Hq] _] Hg].
  apply negb_false_iff in Hp, Hq, Hg.
  apply sameProject_eq in Hp. apply String.eqb_eq in Hq.
  apply Z.eqb_eq in Hg. unfold queryOf. now rewrite F, Hp, Hq, Hg.
Qed.

Lemma render_timerCurrent (fresh : bool) (s' : Dashboard) (w0 w : World) :
  ui w0 = ui w -> clock w0 = clock w -> debounceTimer w0 = debounceTimer w ->
  (fresh = false -> filters s' = filters (ui w)) ->
  timerCurrent w ->
  timerCurrent (render fresh s' w0).
Proof.
  intros U C T F H deadline q. rewrite render_timer.
  destruct (render_frame fresh s' w0) as (U' & C' & _). rewrite U', C', U, C.
  destruct (listDepsChanged fresh (ui w) s') eqn:E.
  - intros [= <- <-]. unfold debounceDelay. split; [reflexivity | lia].
  - rewrite T. intros Ht. destruct (H deadline q Ht) as [-> B].
    split; [|exact B]. symmetry.
    destruct fresh.
    + unfold listDepsChanged in E. now rewrite orb_true_r in E.
    + now apply same_deps_same_query; [|apply F].
Qed.

Lemma step_timerCurrent (e : Event) (w w' : World) :
  timerCurrent w -> step e w = Some w' -> timerCurrent w'.
Proof.
  intros H Hs.
  destruct e; step_cases Hs;
    try (apply (render_timerCurrent _ _ _ w); try reflexivity;
         try exact H; try discriminate; intros _; try reflexivity;
         now destruct r);
    try exact H.
  (* time passes *)
  intros deadline q. unfold elapse.
  apply Z.leb_le in Guard.
  destruct (debounceTimer w) as [[d0 q0]|] eqn:T.
  - destruct (Z.leb_spec d0 (clock w + ms)) as [Hle|Hgt].
    + unfold fetchRequirements.
      destruct (isValidProjectId (q_project q0)); cbn; discriminate.
    + cbn. rewrite T. intros [= <- <-].
      destruct (H d0 q0 T) as [-> B]. split; [reflexivity | lia].
  - cbn. rewrite T. discriminate.
Qed.

(** X7. In every state the component can reach, the closure of a pending
    timer holds the query as it is now, and the timer is due within the
    debounce delay: no change of project, search text, filters or page is
    ever missed by the fetch that is waiting. So a list request, when it
    goes out, carries the query state of that moment. *)
Theorem pending_fetch_is_current (w : World) :
  reachable w ->
  (forall deadline q,
     debounceTimer w = Some (deadline, q) ->
     q = queryOf (ui w)
     /\ clock w < deadline <= clock w + debounceDelay)
  /\ (forall ms w',
        step (Elapse ms) w = Some w' ->
        listRequests w' = listRequests w
        \/ listRequests w' = (listRequests w ++ [queryOf (ui w)])%list).
Proof.
  intros Hr.
  assert (H : timerCurrent w).
  { revert w Hr. apply reachable_invariant.
    - intros deadline q [= <- <-]. unfold debounceDelay. cbn.
      split; [reflexivity | lia].
    - intros e w w' Hw Hs. exact (step_timerCurrent e w w' Hw Hs). }
  split; [exact H|].
  intros ms w' Hs. step_cases Hs.
  destruct (elapse_others ms w) as (_ & _ & _ & L).
  destruct L as [L | (deadline & q & T & _ & L)]; [now left|].
  right. rewrite L. now destruct (H deadline q T) as [-> _].
Qed.

Lemma pending_fetch_is_current_example :
  exists deadline,
    debounceTimer onPageTwoWorld
    = Some (deadline, queryOf (ui onPageTwoWorld))
    /\ clock onPageTwoWorld < deadline
       <= clock onPageTwoWorld + debounceDelay.
Proof.
  destruct (pending_fetch_is_current onPageTwoWorld
              ltac:(exists onPageTwo; vm_compute; reflexivity)) as [H _].
  destruct (debounceTimer onPageTwoWorld) as [[deadline q]|] eqn:T.
  - destruct (H deadline q eq_refl) as [-> B]. exists deadline.
    split; [reflexivity | exact B].
  - vm_compute in T. discriminate T.
Defined.

(** X8. A response of the list request that names a page other than the
    one the dashboard is on makes the list effect run again: a further
    fetch, for the page of the response, is scheduled one debounce delay
    later. A response that names the current page, and a failed one,
    leave the timer as it is. *)
Theorem response_page_refetch (w : World) (id : nat) (r : ListResult) :
  isPending id (listPending w) = true ->
  exists w',
    step (ListSettled id r) w = Some w'
    /\ debounceTimer w'
       = match r with
         | ListResolved data =>
             if int_or (d_page data) 1 =? page (pagination (ui w))
             then debounceTimer w
             else Some (clock w + debounceDelay,
                        {| q_project := selectedProject (ui w);
                           q_search := searchQuery (ui w);
                           q_filters := filters (ui w);
                           q_page := int_or (d_page data) 1 |})
         | ListRejected _ => debounceTimer w
         end.
Proof.
  intros H. cbn [step]. rewrite H. eexists. split; [reflexivity|].
  rewrite render_timer. cbn [ui setList clock debounceTimer].
  unfold listDepsChanged.
  assert (P : sameProject (selectedProject (ui w)) (selectedProject (ui w))
              = true) by (destruct (selectedProject (ui w)); cbn;
                          [apply Z.eqb_refl | reflexivity]).
  destruct r as [data|e]; cbn; rewrite P, String.eqb_refl; cbn.
  - rewrite (Z.eqb_sym (page (pagination (ui w)))).
    now destruct (int_or (d_page data) 1 =? page (pagination (ui w))).
  - now rewrite Z.eqb_refl.
Qed.

Lemma response_page_refetch_example :
  exists w',
    step (ListSettled 0
            (ListResolved {| d_requirements := Some [greeting];
                             d_page := Some 2; d_pages := Some 3;
                             d_total := Some 25 |}))
         firstRequestWorld = Some w'
    /\ debounceTimer w'
       = Some (1000, {| q_project := Some 1; q_search := "";
                        q_filters := noFilters; q_page := 2 |}).
Proof.
  apply (response_page_refetch firstRequestWorld 0
           (ListResolved {| d_requirements := Some [greeting];
                            d_page := Some 2; d_pages := Some 3;
                            d_total := Some 25 |})).
  vm_compute. reflexivity.
Defined.

(** ** Pagination *)

Lemma step_pageBounded (e : Event) (w w' : World) :
  pageBounded w -> wellPaged e = true -> step e w = Some w' ->
  pageBounded w'.
Proof.
  unfold pageBounded. intros H Hp Hs.
  pose proof (step_ui e w w' Hs) as U.
  destruct e; rewrite U; clear U; try exact H;
    try (destruct r; exact H).
  - cbn. lia.
  - step_cases Hs. rewrite !andb_true_iff in Guard.
    destruct Guard as [_ G]. apply negb_true_iff, Z.eqb_neq in G. cbn. lia.
  - step_cases Hs. rewrite !andb_true_iff in Guard.
    destruct Guard as [_ G]. apply negb_true_iff, Z.eqb_neq in G. cbn. lia.
  - destruct (elapse_ui ms w) as [-> | ->]; exact H.
  - destruct r as [data|err]; [|exact H]. cbn [wellPaged pageInRange] in Hp.
    apply andb_true_iff in Hp. destruct Hp as [H1 H2].
    apply Z.leb_le in H1, H2. cbn. lia.
Qed.

(** X9. As long as every list response names a page within its number of
    pages, the page of the dashboard stays between 1 and the number of
    pages: Previous and Next do not leave this range, and ticking a filter
    goes to page 1. *)
Theorem page_within_pages (events : list Event) (w : World) :
  forallb wellPaged events = true ->
  run events mounted = Some w ->
  1 <= page (pagination (ui w)) <= pages (pagination (ui w)).
Proof.
  assert (G : forall events w0 w',
             pageBounded w0 -> forallb wellPaged events = true ->
             run events w0 = Some w' -> pageBounded w').
  { clear. intros events.
    induction events as [|e events IH]; intros w0 w' H0 Hp Hr.
    - now injection Hr as <-.
    - cbn [forallb] in Hp. apply andb_true_iff in Hp. destruct Hp as [He Hp].
      cbn [run] in Hr. destruct (step e w0) as [w1|] eqn:Hs; [|discriminate].
      exact (IH w1 w' (step_pageBounded e w0 w1 H0 He Hs) Hp Hr). }
  intros Hp Hr. apply (G events mounted w); try assumption.
  unfold pageBounded. cbn. lia.
Qed.

Lemma page_within_pages_example :
  1 <= page (pagination (ui onPageTwoWorld))
  <= pages (pagination (ui onPageTwoWorld)).
Proof.
  apply (page_within_pages onPageTwo onPageTwoWorld);
    vm_compute; reflexivity.
Defined.

(** ** The filtered stats *)

(** X10. In every state the component can reach, the filtered stats are
    those of the requirement list on display, unless that list is empty:
    a failed fetch empties the list and leaves the stats of the list
    before. *)
Theorem filteredStats_of_displayed_list (w : World) :
  reachable w ->
  requirements (ui w) = []
  \/ filteredStats (ui w) = newFilteredStats (requirements (ui w)).
Proof.
  apply (reachable_invariant
           (fun w => requirements (ui w) = []
                     \/ filteredStats (ui w)
                        = newFilteredStats (requirements (ui w)))).
  - now left.
  - intros e w0 w' IH Hs. pose proof (step_ui e w0 w' Hs) as U.
    destruct e; rewrite U; clear U; try exact IH;
      try (destruct r; exact IH).
    + destruct (elapse_ui ms w0) as [-> | ->]; exact IH.
    + destruct r; [right | left]; reflexivity.
Qed.

Lemma filteredStats_of_displayed_list_example :
  requirements (ui overtakenWorld) = []
  \/ filteredStats (ui overtakenWorld)
     = newFilteredStats (requirements (ui overtakenWorld)).
Proof.
  apply (filteredStats_of_displayed_list overtakenWorld).
  exists overtaken. vm_compute. reflexivity.
Defined.

(** After a failed fetch the stats of the list before are still shown. *)
Remark filteredStats_after_failure :
  option_map (fun w => (requirements (ui w), filteredStats (ui w)))
    (run (overtaken ++ [ListSettled 0 (ListRejected None)]) mounted)
  = Some ([], {| total := 1; approved := 1; inReview := 0;
                 disapproved := 0 |}).
Proof. vm_compute. reflexivity. Qed.

(** ** The exported document *)

Lemma exportRows_shape (rate : JsNum) (reqs : list Requirement)
  (rows : list (list string)) :
  exportRows rate reqs = Some rows ->
  List.length rows = List.length reqs
  /\ Forall (fun row => List.length row = 10%nat) rows
  /\ map (fun row => nth 0 row EmptyString) rows = map req_id reqs.
Proof.
  revert rows. induction reqs as [|req reqs IH]; intros rows H.
  - injection H as <-. repeat split. constructor.
  - cbn [exportRows] in H.
    destruct (exportRow rate req) as [row|] eqn:R; [|discriminate].
    destruct (exportRows rate reqs) as [rows'|]; [|discriminate].
    injection H as <-. destruct (IH rows' eq_refl) as (L & F & I).
    unfold exportRow in R.
    destruct (toISOString (Date_parse (date req))); [|discriminate].
    injection R as <-. cbn [List.length map nth]. rewrite L, I.
    repeat split. now constructor.
Qed.

(** X11. When the export offers a file, the document has the two metadata
    rows, a blank row and the column header, then one row of ten cells for
    every requirement on display, in their order and starting with the id,
    then a blank row and the two totals; and the totals are the hours and
    the cost the dashboard shows under the filtered statistics. *)
Theorem export_matches_dashboard (s : Dashboard) (filename content : string) :
  exportData s = Download filename content ->
  exists project rows,
    selectedProjectData s = Some project
    /\ List.length rows = List.length (requirements s)
    /\ Forall (fun row => List.length row = 10%nat) rows
    /\ map (fun row => nth 0 row EmptyString) rows
       = map req_id (requirements s)
    /\ content
       = join nl (map (join ",")
           ([ ["Project Name"; proj_name project];
              ["Hourly Rate"; "$" ++ toFixed2 (hourlyRate s)];
              [];
              ["ID"; "Requirement"; "Status"; "Priority"; "Complexity";
               "Author"; "Date"; "Hours"; "Cost"; "Cost/Hour"] ]
            ++ rows
            ++ [ [];
                 ["Total Hours"; toString (totalHours (currentCosts s))];
                 ["Total Cost";
                  "$" ++ toFixed2 (totalCost (currentCosts s))] ])).
Proof.
  unfold exportData. intros H.
  destruct (selectedProjectData s) as [project|]; [|discriminate].
  destruct (exportRows (hourlyRate s) (requirements s)) as [rows|] eqn:R;
    [|discriminate].
  injection H as _ <-. exists project, rows.
  destruct (exportRows_shape _ _ _ R) as (L & F & I).
  now repeat split.
Qed.

Lemma export_matches_dashboard_acme :
  exists project rows,
    selectedProjectData acmeDashboard = Some project
    /\ List.length rows = List.length (requirements acmeDashboard)
    /\ Forall (fun row => List.length row = 10%nat) rows
    /\ map (fun row => nth 0 row EmptyString) rows
       = map req_id (requirements acmeDashboard)
    /\ join nl [ "Project Name,Acme Co"; "Hourly Rate,$50.00"; "";
                 columnHeader; greetingRow; ""; "Total Hours,2";
                 "Total Cost,$100.00" ]
       = join nl (map (join ",")
           ([ ["Project Name"; proj_name project];
              ["Hourly Rate"; "$" ++ toFixed2 (hourlyRate acmeDashboard)];
              [];
              ["ID"; "Requirement"; "Status"; "Priority"; "Complexity";
               "Author"; "Date"; "Hours"; "Cost"; "Cost/Hour"] ]
            ++ rows
            ++ [ [];
                 ["Total Hours";
                  toString (totalHours (currentCosts acmeDashboard))];
                 ["Total Cost";
                  "$" ++ toFixed2 (totalCost (currentCosts acmeDashboard))] ])).
Proof.
  apply (export_matches_dashboard acmeDashboard
           "requirements_Acme_Co_export.csv").
  vm_compute. reflexivity.
Defined.

Lemma exportRow_throws (rate : JsNum) (req : Requirement) :
  exportRow rate req = None <-> Date_parse (date req) = None.
Proof.
  unfold exportRow, toISOString.
  destruct (Date_parse (date req)) as [ms|]; [|now split].
  destruct (civil_from_days (ms / 86400000)) as [[y m] d].
  split; discriminate.
Qed.

Lemma exportRows_throws (rate : JsNum) (reqs : list Requirement) :
  exportRows rate reqs = None
  <-> exists req, In req reqs /\ Date_parse (date req) = None.
Proof.
  induction reqs as [|req reqs IH]; cbn [exportRows].
  - split; [discriminate | intros (? & [] & _)].
  - pose proof (exportRow_throws rate req) as T.
    destruct (exportRow rate req) as [row|].
    + destruct (exportRows rate reqs) as [rows|].
      * split; [discriminate|]. intros (r & [<-|Hin] & Hr).
        -- apply T in Hr. discriminate.
        -- assert (X : Some rows = None) by (apply IH; now exists r).
           discriminate X.
      * split; [|reflexivity]. intros _.
        destruct (proj1 IH eq_refl) as (r & Hin & Hr).
        exists r. split; [now right | exact Hr].
    + split; [|reflexivity]. intros _. exists req.
      split; [now left | now apply T].
Qed.



(** X13. Doubling the double quotes loses nothing: a reader that takes
    two double quotes in a row for one gets the requirement text back, so
    two different texts never give the same cell. *)
Theorem replace_dquotes_round_trip (text : string) :
  undouble (replace_dquotes text) = text
  /\ (forall other,
        replace_dquotes other = replace_dquotes text -> other = text).
Proof.
  assert (R : forall t, undouble (replace_dquotes t) = t).
  { induction t as [|c t IH]; [reflexivity|].
    cbn [replace_dquotes].
    destruct (Ascii.eqb c (ascii_of_nat 34)) eqn:E.
    - cbn [undouble]. rewrite E. cbn [andb]. now rewrite IH.
    - destruct (replace_dquotes t) as [|c' t'] eqn:T.
      + cbn [undouble]. destruct t; [reflexivity|].
        cbn [replace_dquotes] in T.
        destruct (Ascii.eqb a (ascii_of_nat 34)); discriminate.
      + cbn [undouble]. rewrite E. cbn [andb]. cbn [undouble] in IH.
        now rewrite IH. }
  split; [apply R|]. intros other H.
  now rewrite <- (R other), H, R.
Qed.

Lemma replace_dquotes_round_trip_greeting :
  undouble (replace_dquotes (requirement greeting)) = requirement greeting.
Proof. exact (proj1 (replace_dquotes_round_trip (requirement greeting))). Defined.

Lemma allChars_append (p : ascii -> bool) (a b : string) :
  allChars p (a ++ b) = allChars p a && allChars p b.
Proof.
  induction a as [|c a IH]; [reflexivity|]. cbn [append allChars].
  now rewrite IH, andb_assoc.
Qed.

Lemma replace_non_alnum_safe (name : string) :
  allChars (fun c => is_alnum c || Ascii.eqb c "_"%char)
           (replace_non_alnum name) = true.
Proof.
  induction name as [|c name IH]; [reflexivity|].
  cbn [replace_non_alnum allChars]. rewrite IH, andb_true_r.
  destruct (is_alnum c) eqn:E; [now rewrite E | reflexivity].
Qed.

Lemma export_file_name (s : Dashboard) (filename content : string) :
  exportData s = Download filename content ->
  exists project,
    selectedProjectData s = Some project
    /\ filename
       = "requirements_" ++ replace_non_alnum (proj_name project)
         ++ "_export.csv".
Proof.
  unfold exportData. intros H.
  destruct (selectedProjectData s) as [project|]; [|discriminate].
  destruct (exportRows _ _); [|discriminate]. injection H as H _.
  exists project. split; [reflexivity|]. symmetry. exact H.
Qed.

Lemma replace_non_alnum_length (name : string) :
  String.length (replace_non_alnum name) = String.length name.
Proof.
  induction name as [|c name IH]; [reflexivity|].
  cbn [replace_non_alnum String.length]. now rewrite IH.
Qed.

Lemma replace_non_alnum_keeps (name : string) :
  allChars is_alnum name = true -> replace_non_alnum name = name.
Proof.
  induction name as [|c name IH]; [reflexivity|].
  cbn [allChars replace_non_alnum]. intros H.
  apply andb_true_iff in H. destruct H as [-> H]. now rewrite IH.
Qed.

Lemma append_length (a b : string) :
  String.length (a ++ b) = (String.length a + String.length b)%nat.
Proof.
  induction a as [|c a IH]; [reflexivity|].
  cbn [append String.length]. now rewrite IH.
Qed.

(** X14. The name of the exported file is made of letters, digits,
    underscores and the dot of its extension, whatever the project is
    called: every other character of the project name is replaced by an
    underscore, one for one, and a name of letters and digits is kept. *)
Theorem export_file_name_safe (s : Dashboard) (filename content : string) :
  exportData s = Download filename content ->
  allChars fileNameChar filename = true
  /\ exists project,
       selectedProjectData s = Some project
       /\ String.length filename
          = (String.length (proj_name project) + 24)%nat
       /\ (allChars is_alnum (proj_name project) = true ->
           filename = "requirements_" ++ proj_name project ++ "_export.csv").
Proof.
  intros H. destruct (export_file_name s filename content H)
    as (project & Hp & ->).
  split; [|exists project; split; [exact Hp|split]].
  - rewrite !allChars_append.
    assert (A : forall t, allChars (fun c => is_alnum c || Ascii.eqb c "_"%char)
                            t = true -> allChars fileNameChar t = true).
    { induction t as [|c t IH]; [reflexivity|]. cbn [allChars].
      intros H0. apply andb_true_iff in H0. destruct H0 as [Hc H0].
      unfold fileNameChar at 1. rewrite Hc. cbn [orb andb]. now apply IH. }
    rewrite (A _ (replace_non_alnum_safe (proj_name project))). reflexivity.
  - rewrite !append_length, replace_non_alnum_length. cbn [String.length]. lia.
  - intros Hal. now rewrite (replace_non_alnum_keeps _ Hal).
Qed.

Lemma export_file_name_safe_acme :
  allChars fileNameChar "requirements_Acme_Co_export.csv" = true.
Proof.
  apply (export_file_name_safe acmeDashboard
           "requirements_Acme_Co_export.csv"
           (join nl [ "Project Name,Acme Co"; "Hourly Rate,$50.00"; "";
                      columnHeader; greetingRow; ""; "Total Hours,2";
                      "Total Cost,$100.00" ])).
  vm_compute. reflexivity.
Defined.

(** X15. The card of a requirement and its row in the export show the
    same cost whenever the estimate is a number: [|| 0], which only the
    card applies, changes nothing then. *)
Theorem card_and_row_cost_agree (rate : JsNum) (req : Requirement) :
  estimated_time req <> NaN ->
  rowCost rate req = cardCost rate req.
Proof.
  unfold rowCost, cardCost, num_or. intros H.
  destruct (estimated_time req) as [|s|q]; [contradiction|reflexivity|].
  cbn [truthy]. destruct (Qsign q =? 0) eqn:E; [|reflexivity].
  cbn [negb]. apply Z.eqb_eq in E. pose proof (Qsign_zero q E) as Z0.
  destruct rate as [|s|r]; cbn [mul num]; [reflexivity| |].
  - rewrite E. reflexivity.
  - f_equal. apply Qred_complete. now rewrite Z0.
Qed.

Lemma card_and_row_cost_agree_greeting :
  rowCost (num 50) greeting = cardCost (num 50) greeting.
Proof. apply (card_and_row_cost_agree (num 50) greeting). discriminate. Defined.

(** ** Not a number *)

Lemma sumHours_isNaN (reqs : list Requirement) (acc : JsNum) :
  isNaN (fold_left
           (fun sum req => add sum (num_or (estimated_time req) (num 0)))
           reqs acc)
  = isNaN acc
    || (match acc with Inf false => true | _ => false end
        || hasInfinite false reqs)
       && (match acc with Inf true => true | _ => false end
           || hasInfinite true reqs).
Proof.
  revert acc. induction reqs as [|r reqs IH]; intros acc.
  - cbn. destruct acc as [|[|]|a]; reflexivity.
  - cbn [fold_left]. rewrite IH. unfold hasInfinite. cbn [existsb].
    fold (hasInfinite false reqs). fold (hasInfinite true reqs).
    unfold num_or.
    destruct (estimated_time r) as [|[|]|q]; cbn [truthy];
      try destruct (negb (Qsign q =? 0));
      destruct acc as [|[|]|a]; cbn;
      destruct (hasInfinite false reqs), (hasInfinite true reqs);
      reflexivity.
Qed.

Lemma hasInfinite_In (negative : bool) (reqs : list Requirement) :
  hasInfinite negative reqs = true
  <-> exists r, In r reqs /\ estimated_time r = Inf negative.
Proof.
  unfold hasInfinite. rewrite existsb_exists. split.
  - intros (r & Hin & H). exists r. split; [exact Hin|].
    destruct (estimated_time r) as [|s|q]; try discriminate.
    now apply Bool.eqb_prop in H; subst.
  - intros (r & Hin & H). exists r. split; [exact Hin|].
    rewrite H. apply Bool.eqb_reflx.
Qed.


(** ** The Jira integration *)

Lemma listDeps_same_query (s s' : Dashboard) :
  selectedProject s' = selectedProject s ->
  searchQuery s' = searchQuery s ->
  page (pagination s') = page (pagination s) ->
  listDepsChanged false s s' = false.
Proof.
  intros H1 H2 H3. unfold listDepsChanged.
  rewrite H1, H2, H3, String.eqb_refl, Z.eqb_refl.
  now destruct (selectedProject s); cbn; rewrite ?Z.eqb_refl.
Qed.

(** A render that changes nothing of the list and its query. *)
Lemma render_listMachinery (s' : Dashboard) (w : World) :
  queryOf s' = queryOf (ui w) ->
  displayed s' = displayed (ui w) ->
  loading s' = loading (ui w) ->
  error s' = error (ui w) ->
  listMachinery (render false s' w) = listMachinery w.
Proof.
  intros Q D L E. unfold listMachinery.
  destruct (render_frame false s' w) as (U & C & R & P).
  rewrite U, C, R, P, Q, D, L, E, render_keeps_timer; [reflexivity|].
  injection Q as Q1 Q2 _ Q4. now apply listDeps_same_query.
Qed.

Lemma step_keeps_jira (e : Event) (w w' : World) :
  step e w = Some w' ->
  jiraSettings (ui w') = jiraSettings (ui w)
  /\ isJiraModalOpen (ui w') = isJiraModalOpen (ui w).
Proof.
  intros Hs. rewrite (step_ui e w w' Hs).
  destruct e; try (now split); try (destruct r; now split).
  destruct (elapse_ui ms w) as [-> | ->]; now split.
Qed.

(** X17. Connecting to Jira and pushing never touch the list: whatever
    the modal, a connect response or a push does, the query, the displayed
    requirements, stats and pagination, the loading flag, the error
    message, the timer and the list requests stay as they are, so no
    fetch is caused. A push changes no state at all and raises exactly one
    alert when it settles; and the events of the dashboard leave the Jira
    settings and the modal alone. *)
Theorem jira_leaves_list_alone (a : Action) (ss ss' : Session) :
  act a ss = Some ss' ->
  match a with
  | OnDashboard e =>
      jiraSettings (ui (world ss')) = jiraSettings (ui (world ss))
      /\ isJiraModalOpen (ui (world ss')) = isJiraModalOpen (ui (world ss))
      /\ alerts ss' = alerts ss
      /\ pushRequests ss' = pushRequests ss
  | ClickPush _ => world ss' = world ss /\ alerts ss' = alerts ss
  | PushSettled r =>
      world ss' = world ss
      /\ alerts ss' = (alerts ss ++ [pushToJira r])%list
  | _ => listMachinery (world ss') = listMachinery (world ss)
  end.
Proof.
  intros H. destruct a; cbn [act] in H.
  - destruct (step e (world ss)) as [w'|] eqn:Hs; [|discriminate].
    injection H as <-. cbn [world alerts pushRequests].
    destruct (step_keeps_jira e _ _ Hs). now repeat split.
  - injection H as <-. now apply render_listMachinery.
  - injection H as <-. now apply render_listMachinery.
  - injection H as <-. cbn [world].
    apply render_listMachinery; destruct r as [[|]|e]; reflexivity.
  - destruct (nth_error _ index) as [req|]; [|discriminate].
    destruct (pushButton _ req) as [[|]|]; try discriminate.
    destruct (cardsShown _); [|discriminate]. injection H as <-. now split.
  - destruct (pushPending ss); [discriminate|]. injection H as <-. now split.
Qed.

Lemma jira_leaves_list_alone_example :
  listMachinery
    (world (orStarted (act (ConnectSettled "REQ" (ConnectResolved true))
                           firstRequestSession)))
  = listMachinery (world firstRequestSession).
Proof.
  refine (jira_leaves_list_alone
            (ConnectSettled "REQ" (ConnectResolved true))
            firstRequestSession
            (orStarted (act (ConnectSettled "REQ" (ConnectResolved true))
                            firstRequestSession))
            _).
  vm_compute. reflexivity.
Defined.

Lemma act_jiraConsistent (a : Action) (ss ss' : Session) :
  jiraConsistent ss -> act a ss = Some ss' ->
  jiraConsistent ss'
  /\ (isConnected (jiraSettings (ui (world ss))) = true ->
      isConnected (jiraSettings (ui (world ss'))) = true).
Proof.
  unfold jiraConsistent. cbv zeta. intros [Hoff Hpend] H.
  destruct a; cbn [act] in H.
  - destruct (step e (world ss)) as [w'|] eqn:Hs; [|discriminate].
    injection H as <-. cbn [world pushRequests pushPending].
    destruct (step_keeps_jira e _ _ Hs) as [-> _].
    split; [split; assumption | trivial].
  - injection H as <-. cbn [world pushRequests pushPending].
    rewrite (proj1 (render_frame _ _ _)).
    split; [split; assumption | trivial].
  - injection H as <-. cbn [world pushRequests pushPending].
    rewrite (proj1 (render_frame _ _ _)).
    split; [split; assumption | trivial].
  - injection H as <-. cbn [world pushRequests pushPending].
    rewrite (proj1 (render_frame _ _ _)).
    destruct r as [[|]|e]; cbn [connectToJira fst setJiraSettings
                                 jiraSettings isConnected projectKey];
      (split; [split; [|assumption] | trivial]);
      try discriminate; try exact Hoff.
  - destruct (nth_error _ index) as [req|]; [|discriminate].
    unfold pushButton in H.
    destruct (String.eqb (status req) "Approved"); [|discriminate].
    destruct (isConnected (jiraSettings (ui (world ss)))) eqn:C;
      [|discriminate]. cbn [negb] in H.
    destruct (cardsShown _); [|discriminate]. injection H as <-.
    cbn [world pushRequests pushPending]. rewrite C.
    split; [split; [discriminate|] | trivial].
    rewrite length_app. cbn [List.length]. lia.
  - destruct (pushPending ss) as [|n] eqn:P; [discriminate|].
    injection H as <-. cbn [world pushRequests pushPending].
    split; [split; [exact Hoff | lia] | trivial].
Qed.

(** X18. A session never loses its Jira connection: once a connect
    response has reported success, the settings stay connected whatever
    follows, a later failed connect included. Until then the project key
    is empty and nothing has been pushed, so every push was made while
    connected; and no more pushes are outstanding than were made. *)
Theorem jira_connection_kept (actions : list Action) (ss : Session) :
  perform actions started = Some ss ->
  (isConnected (jiraSettings (ui (world ss))) = false ->
     projectKey (jiraSettings (ui (world ss))) = EmptyString
     /\ pushRequests ss = [])
  /\ (pushPending ss <= List.length (pushRequests ss))%nat
  /\ (forall more ss',
        perform more ss = Some ss' ->
        isConnected (jiraSettings (ui (world ss))) = true ->
        isConnected (jiraSettings (ui (world ss'))) = true).
Proof.
  assert (G : forall actions s0 s1,
             jiraConsistent s0 -> perform actions s0 = Some s1 ->
             jiraConsistent s1
             /\ (isConnected (jiraSettings (ui (world s0))) = true ->
                 isConnected (jiraSettings (ui (world s1))) = true)).
  { clear. intros actions.
    induction actions as [|a actions IH]; intros s0 s1 H0 Hp.
    - injection Hp as <-. now split.
    - cbn [perform] in Hp. destruct (act a s0) as [s'|] eqn:Ha; [|discriminate].
      destruct (act_jiraConsistent a s0 s' H0 Ha) as [H1 K1].
      destruct (IH s' s1 H1 Hp) as [H2 K2]. split; [exact H2|]. auto. }
  intros Hp.
  assert (S0 : jiraConsistent started).
  { split; [now split | cbn; lia]. }
  destruct (G actions started ss S0 Hp) as [[Hoff Hpend] _].
  split; [exact Hoff|]. split; [exact Hpend|].
  intros more ss' Hm. exact (proj2 (G more ss ss' (conj Hoff Hpend) Hm)).
Qed.

Lemma jira_connection_kept_example :
  (pushPending connectedSession
   <= List.length (pushRequests connectedSession))%nat.
Proof.
  apply (jira_connection_kept
           [OnDashboard (ProjectsSettled (Some [acme]));
            OnDashboard (SelectProject "1");
            OnDashboard (Elapse 500);
            OnDashboard (ListSettled 0 lateAnswer);
            ConnectSettled "REQ" (ConnectResolved true)]
           connectedSession).
  vm_compute. reflexivity.
Defined.

(** ** The project and stats fetches *)

(** X19. The answers to the project fetch and to the stats fetch touch
    nothing of the list: query, displayed requirements, filtered stats,
    pagination, loading flag, timer and list requests stay, so a failure
    of either does not clear the list and causes no fetch. A success
    stores the projects or the overall stats and leaves the error message;
    a failure sets the error message and leaves the projects and the
    overall stats as they were. *)
Theorem side_fetches_leave_list_alone (e : Event) (w w' : World) :
  step e w = Some w' ->
  match e with
  | ProjectsSettled r =>
      (queryOf (ui w'), displayed (ui w'), loading (ui w'), debounceTimer w',
       listRequests w', listPending w', overallStats (ui w'))
      = (queryOf (ui w), displayed (ui w), loading (ui w), debounceTimer w,
         listRequests w, listPending w, overallStats (ui w))
      /\ match r with
         | Some data => projects (ui w') = data /\ error (ui w') = error (ui w)
         | None =>
             projects (ui w') = projects (ui w)
             /\ error (ui w')
                = "Failed to load projects. Please try again later."
         end
  | StatsSettled _ r =>
      (queryOf (ui w'), displayed (ui w'), loading (ui w'), debounceTimer w',
       listRequests w', listPending w', projects (ui w'))
      = (queryOf (ui w), displayed (ui w), loading (ui w), debounceTimer w,
         listRequests w, listPending w, projects (ui w))
      /\ match r with
         | Some data =>
             overallStats (ui w') = data /\ error (ui w') = error (ui w)
         | None =>
             overallStats (ui w') = overallStats (ui w)
             /\ error (ui w')
                = "Failed to load statistics. Please try again."
         end
  | _ => True
  end.
Proof.
  intros Hs. destruct e; try exact I; step_cases Hs.
  - destruct (render_frame false (fetchProjectsSettled r (ui w))
                (setProjectsPending false w)) as (U & _ & L & P).
    rewrite U, L, P, render_keeps_timer.
    + destruct r; now repeat split.
    + apply listDeps_same_query; now destruct r.
  - destruct (render_frame false (fetchOverallStatsSettled r (ui w))
                (setStats (statsRequests w) (dropPending id (statsPending w)) w))
      as (U & _ & L & P).
    rewrite U, L, P, render_keeps_timer.
    + destruct r; now repeat split.
    + apply listDeps_same_query; now destruct r.
Qed.

Lemma side_fetches_leave_list_alone_example :
  exists w',
    step (StatsSettled 0 None) overtakenWorld = Some w'
    /\ requirements (ui w') = requirements (ui overtakenWorld)
    /\ error (ui w') = "Failed to load statistics. Please try again.".
Proof.
  exists (orMounted (step (StatsSettled 0 None) overtakenWorld)).
  assert (Hs : step (StatsSettled 0 None) overtakenWorld
               = Some (orMounted (step (StatsSettled 0 None) overtakenWorld)))
    by (vm_compute; reflexivity).
  destruct (side_fetches_leave_list_alone _ _ _ Hs) as (F & _ & E).
  split; [exact Hs|]. split; [|exact E].
  exact (f_equal
           (fun t => fst (fst (snd (fst (fst (fst (fst (fst t)))))))) F).
Defined.

(** X20. Choosing a project asks for its overall stats at once, without
    the debounce: a change to another valid project issues exactly one
    stats request, for the new id; choosing the project that is selected
    already, or clearing the selection, issues none. *)
Theorem select_project_requests_stats (value : string) (w w' : World) :
  step (SelectProject value) w = Some w' ->
  statsRequests w'
  = match selectedProject (ui w') with
    | Some id =>
        if sameProject (selectedProject (ui w)) (Some id)
        then statsRequests w
        else (statsRequests w ++ [id])%list
    | None => statsRequests w
    end
  /\ listRequests w' = listRequests w.
Proof.
  intros Hs. pose proof (step_ui _ _ _ Hs) as U. step_cases Hs.
  split; [|apply render_frame].
  rewrite U. clear U. unfold render, fetchOverallStats.
  pose proof (handleProjectChange_parse value (ui w)) as P.
  set (s' := handleProjectChange value (ui w)) in *.
  destruct (selectedProject s') as [id|] eqn:S.
  - assert (V : isValidProjectId (Some id) = true).
    { destruct (parseInt10 value) as [n|]; [|discriminate].
      destruct (0 <? n) eqn:N; [|discriminate]. now injection P as <-. }
    cbn [isValidProjectId] in V.
    destruct (sameProject (selectedProject (ui w)) (Some id));
      destruct (listDepsChanged false (ui w) s'); cbn; rewrite ?S, ?V;
      reflexivity.
  - destruct (sameProject (selectedProject (ui w)) None);
      destruct (listDepsChanged false (ui w) s'); cbn; rewrite ?S;
      reflexivity.
Qed.

Lemma select_project_requests_stats_example :
  statsRequests (orMounted (step (SelectProject "1") projectsLoadedWorld))
  = [1].
Proof.
  apply (select_project_requests_stats "1" projectsLoadedWorld
           (orMounted (step (SelectProject "1") projectsLoadedWorld))).
  vm_compute. reflexivity.
Defined.

(** X21. The loading flag is never left set without a reason: in every
    state the component can reach, while [loading] is set some list
    request is outstanding, whose response will clear it. *)
Theorem loading_has_a_request (w : World) :
  reachable w ->
  loading (ui w) = true -> listPending w <> [].
Proof.
  apply (reachable_invariant
           (fun w => loading (ui w) = true -> listPending w <> [])).
  - discriminate.
  - intros e w0 w' IH Hs.
    assert (R : forall fresh s' w1,
               listPending w1 = listPending w0 ->
               loading s' = loading (ui w0) ->
               loading (ui (render fresh s' w1)) = true ->
               listPending (render fresh s' w1) <> []).
    { intros fresh s' w1 E1 E2.
      destruct (render_frame fresh s' w1) as (U & _ & _ & P).
      rewrite U, P, E1, E2. exact IH. }
    destruct e; step_cases Hs; try (apply R; try reflexivity; now destruct r);
      try exact IH.
    + unfold elapse. destruct (debounceTimer w0) as [[deadline q]|];
        [|exact IH].
      destruct (deadline <=? clock w0 + ms); [|exact IH].
      unfold fetchRequirements.
      destruct (isValidProjectId (q_project q)); cbn; [discriminate|exact IH].
    + rewrite (proj1 (render_frame _ _ _)). now destruct r.
Qed.

Lemma loading_has_a_request_example : listPending firstRequestWorld <> [].
Proof.
  apply (loading_has_a_request firstRequestWorld).
  - exists firstRequest. vm_compute. reflexivity.
  - vm_compute. reflexivity.
Defined.
(** ** A failed project fetch *)

Lemma run_app (before after : list Event) (w : World) :
  run (before ++ after) w
  = match run before w with
    | Some w' => run after w'
    | None => None
    end.
Proof.
  revert w. induction before as [|e before IH]; intros w; [reflexivity|].
  cbn [app run]. destruct (step e w); [apply IH | reflexivity].
Qed.

Lemma render_noProject (fresh : bool) (s' : Dashboard) (w : World) :
  noProject w -> projects s' = [] -> selectedProject s' = None ->
  noProject (render fresh s' w).
Proof.
  intros (P & S & T & LR & LP & SR & SP) P' S'.
  unfold render. rewrite S, S'. cbn [sameProject].
  destruct (listDepsChanged fresh (ui w) s'); unfold noProject; cbn;
    repeat split; try assumption.
  intros deadline q E. injection E as _ <-. exact S'.
Qed.

(** Without a project the only events that happen are the answer to the
    project fetch, the empty option of the select, the export button and
    the passing of time; none but a list of projects changes anything the
    list depends on. *)
Lemma step_noProject (e : Event) (w w' : World) :
  noProject w -> step e w = Some w' ->
  match e with
  | ProjectsSettled (Some _) => True
  | ProjectsSettled None =>
      noProject w'
      /\ error (ui w') = "Failed to load projects. Please try again later."
  | _ => noProject w' /\ error (ui w') = error (ui w)
  end.
Proof.
  intros N Hs. pose proof N as (P & S & T & LR & LP & SR & SP).
  destruct e; step_cases Hs.
  - destruct r as [data|]; [exact I|].
    split; [|now rewrite (proj1 (render_frame _ _ _))].
    apply render_noProject; assumption.
  - apply andb_prop in Guard. destruct Guard as [_ G].
    unfold projectOptions in G. rewrite P in G. cbn in G.
    rewrite orb_false_r in G. apply String.eqb_eq in G. subst value.
    split; [|now rewrite (proj1 (render_frame _ _ _))].
    apply render_noProject; try assumption; reflexivity.
  - rewrite S in Guard. discriminate.
  - rewrite S in Guard. discriminate.
  - rewrite S in Guard. discriminate.
  - rewrite S in Guard. discriminate.
  - now split.
  - split; [|reflexivity]. unfold noProject; cbn; repeat split; assumption.
  - now split.
  - unfold elapse. destruct (debounceTimer w) as [[deadline q]|] eqn:E.
    + destruct (deadline <=? clock w + ms).
      * unfold fetchRequirements. rewrite (T deadline q eq_refl).
        cbn. split; [|reflexivity].
        unfold noProject; cbn; repeat split; try assumption. discriminate.
      * split; [|reflexivity].
        unfold noProject; cbn; repeat split; try assumption.
        rewrite E. exact T.
    + split; [|reflexivity].
      unfold noProject; cbn; repeat split; try assumption.
      rewrite E. exact T.
  - rewrite LP in Guard. discriminate.
  - rewrite SP in Guard. discriminate.
Qed.

(** X22. A failed project fetch is never seen. After it the list of
    projects stays empty, so the select offers the empty option only, no
    project is ever selected and no list or stats request goes out; the
    error message it set stays as it is, and it is never on screen, since
    the message is rendered inside the block of a valid project. *)
Theorem projects_failure_is_silent (before after : list Event) (w : World) :
  run (before ++ ProjectsSettled None :: after) mounted = Some w ->
  error (ui w) = "Failed to load projects. Please try again later."
  /\ errorShown (ui w) = false
  /\ projectOptions (ui w) = [EmptyString]
  /\ selectedProject (ui w) = None
  /\ listRequests w = [] /\ statsRequests w = [].
Proof.
  rewrite run_app. destruct (run before mounted) as [w1|] eqn:R1;
    [|discriminate].
  cbn [run]. destruct (step (ProjectsSettled None) w1) as [w2|] eqn:S2;
    [|discriminate].
  intros R3.
  assert (N1 : noProject w1).
  { assert (Pend : projectsPending w1 = true).
    { cbn [step] in S2. now destruct (projectsPending w1). }
    revert Pend.
    apply (run_invariant (fun w => projectsPending w = true -> noProject w))
      with (events := before) (w := mounted); [| |exact R1].
    - intros e w0 w0' IH Hs Pend.
      rewrite (step_projectsPending e w0 w0' Hs) in Pend.
      pose proof (fun N => step_noProject e w0 w0' N Hs) as K.
      destruct e; try discriminate; now apply K, IH.
    - intros _. unfold noProject; cbn; repeat split.
      intros deadline q E. now injection E as _ <-. }
  destruct (step_noProject _ _ _ N1 S2) as [N2 E2].
  assert (K : projectsPending w = false /\ noProject w
              /\ error (ui w)
                 = "Failed to load projects. Please try again later.").
  { apply (run_invariant
             (fun w => projectsPending w = false /\ noProject w
                       /\ error (ui w)
                          = "Failed to load projects. Please try again later."))
      with (events := after) (w := w2); [| |exact R3].
    - intros e w0 w0' (Pend & N & E) Hs.
      pose proof (step_projectsPending e w0 w0' Hs) as Pend'.
      pose proof (step_noProject e w0 w0' N Hs) as K.
      destruct e;
        try (destruct K as [N' E']; rewrite Pend', E';
             exact (conj Pend (conj N' E))).
      cbn [step] in Hs. rewrite Pend in Hs. discriminate.
    - split; [|split; assumption].
      now rewrite (step_projectsPending _ _ _ S2). }
  destruct K as (_ & (P & S & _ & LR & _ & SR & _) & E).
  unfold errorShown, projectOptions. rewrite S, P. now repeat split.
Qed.

Lemma projects_failure_is_silent_example :
  errorShown
    (ui (orMounted (run [Elapse 200; ProjectsSettled None;
                         SelectProject EmptyString; Elapse 500] mounted)))
  = false.
Proof.
  apply (projects_failure_is_silent
           [Elapse 200] [SelectProject EmptyString; Elapse 500]
           (orMounted (run [Elapse 200; ProjectsSettled None;
                            SelectProject EmptyString; Elapse 500] mounted))).
  vm_compute. reflexivity.
Defined.
(** ** The date of a row *)

(** The year of the era is recovered from the day of the era. *)
Lemma year_of_era (yoe doy : Z) :
  0 <= yoe < 400 -> 0 <= doy <= 365 ->
  (doy = 365 -> (yoe + 1) mod 4 = 0
                /\ ((yoe + 1) mod 100 <> 0 \/ yoe = 399)) ->
  let doe := yoe * 365 + yoe / 4 - yoe / 100 + doy in
  (doe - doe / 1460 + doe / 36524 - doe / 146096) / 365 = yoe
  /\ 0 <= doe < 146097.
Proof.
  intros Hy Hd Hl doe. subst doe.
  assert (C : doy <= 364 \/ doy = 365) by lia.
  destruct C as [C|C].
  - split; [Z.div_mod_to_equations; lia | Z.div_mod_to_equations; lia].
  - destruct (Hl C) as [L4 L100]. subst doy.
    split; [Z.div_mod_to_equations; lia | Z.div_mod_to_equations; lia].
Qed.

(** Month and day are recovered from the day of the year that starts in
    March. *)
Lemma month_of_day (m d : Z) :
  1 <= m <= 12 -> 1 <= d <= 31 ->
  let mp := if 2 <? m then m - 3 else m + 9 in
  let doy := (153 * mp + 2) / 5 + d - 1 in
  (m = 2 -> d <= 29) ->
  (m = 4 \/ m = 6 \/ m = 9 \/ m = 11 -> d <= 30) ->
  (5 * doy + 2) / 153 = mp
  /\ 0 <= doy <= 365
  /\ (doy = 365 -> m = 2 /\ d = 29).
Proof.
  intros Hm Hd mp doy H2 H30. subst doy mp.
  assert (C : m = 1 \/ m = 2 \/ m = 3 \/ m = 4 \/ m = 5 \/ m = 6 \/ m = 7
              \/ m = 8 \/ m = 9 \/ m = 10 \/ m = 11 \/ m = 12) by lia.
  repeat (destruct C as [C|C]); subst m; cbn -[Z.div Z.mul Z.add];
    repeat split; try (Z.div_mod_to_equations; lia).
Qed.

Lemma days_in_month_bounds (y m : Z) :
  28 <= days_in_month y m <= 31
  /\ (m = 2 -> days_in_month y m = if is_leap y then 29 else 28)
  /\ (m = 4 \/ m = 6 \/ m = 9 \/ m = 11 -> days_in_month y m = 30).
Proof.
  unfold days_in_month.
  destruct (Z.eqb_spec m 2) as [->|N2].
  - destruct (is_leap y); repeat split; try lia.
  - destruct (Z.eqb_spec m 4), (Z.eqb_spec m 6), (Z.eqb_spec m 9),
      (Z.eqb_spec m 11); cbn; repeat split; lia.
Qed.

(** [civil_from_days] undoes [days_from_civil] on every date of the
    calendar. *)
Lemma civil_round_trip (y m d : Z) :
  1 <= m <= 12 -> 1 <= d <= days_in_month y m ->
  civil_from_days (days_from_civil y m d) = (y, m, d).
Proof.
  intros Hm Hd.
  destruct (days_in_month_bounds y m) as (B & B2 & B30).
  unfold days_from_civil, civil_from_days.
  set (y' := if m <=? 2 then y - 1 else y).
  set (era := y' / 400).
  set (yoe := y' - era * 400).
  set (mp := if 2 <? m then m - 3 else m + 9).
  set (doy := (153 * mp + 2) / 5 + d - 1).
  assert (Hyoe : 0 <= yoe < 400).
  { subst yoe era. Z.div_mod_to_equations. lia. }
  destruct (month_of_day m d Hm ltac:(lia)) as (M1 & M2 & M3).
  { intros ->. rewrite (B2 eq_refl) in Hd. destruct (is_leap y); lia. }
  { intros H. rewrite (B30 H) in Hd. lia. }
  fold mp in M1. fold doy in M1, M2, M3.
  assert (L : doy = 365 -> (yoe + 1) mod 4 = 0
                           /\ ((yoe + 1) mod 100 <> 0 \/ yoe = 399)).
  { intros E. destruct (M3 E) as [-> ->].
    rewrite (B2 eq_refl) in Hd.
    destruct (is_leap y) eqn:Leap; [|lia].
    unfold is_leap in Leap. apply andb_prop in Leap.
    destruct Leap as [L4 L100]. apply Z.eqb_eq in L4.
    apply orb_prop in L100.
    assert (Ey : y' = y - 1) by reflexivity.
    clearbody y'. subst yoe era y'.
    destruct L100 as [L100|L400].
    - apply negb_true_iff, Z.eqb_neq in L100.
      Z.div_mod_to_equations. lia.
    - apply Z.eqb_eq in L400. Z.div_mod_to_equations. lia. }
  destruct (year_of_era yoe doy Hyoe M2 L) as [Y D].
  set (doe := yoe * 365 + yoe / 4 - yoe / 100 + doy) in *.
  assert (Hera : (era * 146097 + doe - 719468 + 719468) / 146097 = era).
  { replace (era * 146097 + doe - 719468 + 719468)
      with (doe + era * 146097) by lia.
    rewrite Z.div_add by lia. rewrite (Z.div_small doe) by lia. lia. }
  cbv zeta. rewrite Hera.
  replace (era * 146097 + doe - 719468 + 719468 - era * 146097) with doe
    by lia.
  rewrite Y.
  replace (doe - (365 * yoe + yoe / 4 - yoe / 100)) with doy
    by (subst doe; lia).
  rewrite M1.
  assert (Em : (if mp <? 10 then mp + 3 else mp - 9) = m).
  { subst mp. destruct (Z.ltb_spec 2 m).
    - destruct (Z.ltb_spec (m - 3) 10); lia.
    - destruct (Z.ltb_spec (m + 9) 10); lia. }
  rewrite Em. f_equal; [f_equal|].
  - subst yoe y'. destruct (Z.leb_spec m 2); lia.
  - subst doy. lia.
Qed.

(** A field of digits is the decimal notation of its value, leading zeros
    included. *)
Lemma digit_val_inv (c : ascii) (v : Z) :
  digit_val c = Some v ->
  exists u, NilEmpty.uint_of_string (String c EmptyString) = Some u
            /\ (forall d rest,
                  NilEmpty.uint_of_string rest = Some d ->
                  exists d', NilEmpty.uint_of_string (String c rest) = Some d')
            /\ Ascii.eqb c "T" = false.
Proof.
  destruct c as [[] [] [] [] [] [] [] []]; try discriminate; intros _;
    (eexists; split; [reflexivity|]; split; [|reflexivity];
     intros d rest E; cbn [NilEmpty.uint_of_string]; rewrite E;
     eexists; reflexivity).
Qed.

Lemma digits_val_uint (f : string) (acc v : Z) :
  digits_val acc f = Some v ->
  (exists u, NilEmpty.uint_of_string f = Some u)
  /\ allChars (fun c => negb (Ascii.eqb c "T")) f = true.
Proof.
  revert acc. induction f as [|c f IH]; intros acc H.
  - split; [now exists Decimal.Nil | reflexivity].
  - cbn [digits_val] in H. destruct (digit_val c) as [x|] eqn:C;
      [|discriminate].
    destruct (IH _ H) as [[u U] A].
    destruct (digit_val_inv c x C) as (_ & _ & K & T).
    split; [exact (K u f U)|]. cbn [allChars]. now rewrite T, A.
Qed.

Lemma digits_val_acc (d : Decimal.uint) (acc : positive) :
  digits_val (Zpos acc) (NilEmpty.string_of_uint d)
  = Some (Zpos (Pos.of_uint_acc d acc)).
Proof.
  revert acc. induction d; intros acc;
    cbn [NilEmpty.string_of_uint digits_val Pos.of_uint_acc];
    [reflexivity|..];
    match goal with
    | |- context [digit_val ?c] =>
        let v := eval vm_compute in (digit_val c) in
        change (digit_val c) with v; cbv iota
    end;
    rewrite <- IHd; f_equal; lia.
Qed.

Lemma digits_val_zero (d : Decimal.uint) :
  digits_val 0 (NilEmpty.string_of_uint d)
  = Some (Z.of_N (Pos.of_uint d)).
Proof.
  induction d; cbn [NilEmpty.string_of_uint digits_val Pos.of_uint];
    [reflexivity|..];
    match goal with
    | |- context [digit_val ?c] =>
        let v := eval vm_compute in (digit_val c) in
        change (digit_val c) with v; cbv iota
    end;
    [exact IHd|..]; cbn [Z.mul Z.add Z.of_N]; apply digits_val_acc.
Qed.

(** Leading zeros are all that normalisation takes away. *)
Lemma unorm_zeros (d : Decimal.uint) :
  d <> Decimal.Nil ->
  exists k,
    NilEmpty.string_of_uint d
    = String.concat "" (repeat "0" k)
      ++ NilZero.string_of_uint (Decimal.unorm d).
Proof.
  induction d; intros N; try (now exists 0%nat).
  destruct d; try (destruct IHd as [k K]; [discriminate|];
                   exists (S k); cbn [Decimal.unorm];
                   cbn [NilEmpty.string_of_uint] in K |- *; rewrite K;
                   destruct k; reflexivity).
  now exists 0%nat.
Qed.

Lemma zeros_length (k : nat) :
  String.length (String.concat "" (repeat "0" k)) = k.
Proof.
  induction k as [|k IH]; [reflexivity|].
  cbn [repeat]. destruct k; [reflexivity|].
  change (String.concat "" ("0" :: repeat "0" (S k)))
    with ("0" ++ "" ++ String.concat "" (repeat "0" (S k))).
  cbn [append String.length]. now rewrite IH.
Qed.

(** Printing the value of a field of digits at the width of the field
    gives the field back. *)
Lemma field_print (pos len : nat) (s : string) (v : Z) :
  field pos len s = Some v -> (0 < len)%nat ->
  pad0 len (digits v) = substring pos len s
  /\ allChars (fun c => negb (Ascii.eqb c "T")) (substring pos len s) = true
  /\ String.length (substring pos len s) = len.
Proof.
  unfold field. intros H Hlen.
  destruct (Nat.eqb_spec (String.length (substring pos len s)) len)
    as [L|]; [|discriminate].
  destruct (digits_val_uint _ _ _ H) as [[u U] A].
  split; [|split; [exact A | exact L]].
  apply NilEmpty.sus in U. rewrite <- U in H, L |- *.
  rewrite digits_val_zero in H. injection H as <-.
  assert (N : u <> Decimal.Nil).
  { intros ->. cbn in L. lia. }
  unfold digits. rewrite N2Z.id.
  change (Pos.of_uint u) with (N.of_uint u).
  rewrite DecimalN.Unsigned.to_of.
  destruct (unorm_zeros u N) as [k K].
  unfold pad0. rewrite <- L, K at 1. rewrite append_length, zeros_length.
  replace (k + String.length (NilZero.string_of_uint (Decimal.unorm u))
           - String.length (NilZero.string_of_uint (Decimal.unorm u)))%nat
    with k by lia.
  now rewrite K.
Qed.

Lemma digit_val_bounds (c : ascii) (v : Z) :
  digit_val c = Some v -> 0 <= v <= 9.
Proof.
  unfold digit_val.
  destruct ((48 <=? nat_of_ascii c)%nat && (nat_of_ascii c <=? 57)%nat)
    eqn:B; [|discriminate].
  intros E. injection E as <-. apply andb_prop in B. destruct B as [B1 B2].
  apply Nat.leb_le in B1, B2. lia.
Qed.

Lemma digits_val_bounds (f : string) (acc v : Z) :
  digits_val acc f = Some v -> 0 <= acc ->
  acc * 10 ^ Z.of_nat (String.length f) <= v
  < (acc + 1) * 10 ^ Z.of_nat (String.length f).
Proof.
  revert acc. induction f as [|c f IH]; intros acc H Hacc.
  - injection H as <-. cbn. lia.
  - cbn [digits_val] in H. destruct (digit_val c) as [x|] eqn:C;
      [|discriminate].
    pose proof (digit_val_bounds c x C) as Bx.
    pose proof (IH _ H ltac:(lia)) as B.
    cbn [String.length]. rewrite Nat2Z.inj_succ, Z.pow_succ_r by lia.
    assert (P : 0 < 10 ^ Z.of_nat (String.length f))
      by (apply Z.pow_pos_nonneg; lia).
    nia.
Qed.

Lemma field_bounds (pos len : nat) (s : string) (v : Z) :
  field pos len s = Some v -> 0 <= v < 10 ^ Z.of_nat len.
Proof.
  unfold field.
  destruct (Nat.eqb_spec (String.length (substring pos len s)) len)
    as [L|]; [|discriminate].
  intros H. apply digits_val_bounds in H; [|lia]. rewrite L in H. lia.
Qed.

Lemma substring_empty (p n : nat) : substring p n EmptyString = EmptyString.
Proof. destruct p, n; reflexivity. Qed.

Lemma substring_split (s : string) (p a b : nat) :
  substring p (a + b) s = substring p a s ++ substring (p + a) b s.
Proof.
  revert p a. induction s as [|c s IH]; intros p a.
  - now rewrite !substring_empty.
  - destruct p as [|p].
    + destruct a as [|a]; [reflexivity|].
      cbn [Nat.add substring append]. f_equal. apply (IH 0%nat a).
    + cbn [Nat.add substring]. apply IH.
Qed.

Lemma before_first_append (sep : ascii) (a b : string) :
  allChars (fun c => negb (Ascii.eqb c sep)) a = true ->
  before_first sep (a ++ b) = a ++ before_first sep b.
Proof.
  induction a as [|c a IH]; intros H; [reflexivity|].
  cbn [allChars] in H. apply andb_prop in H. destruct H as [C A].
  apply negb_true_iff in C. cbn [append before_first]. rewrite C.
  now rewrite IH.
Qed.

(** What [Date_parse] accepts: a calendar date in the first ten
    characters, and a time of day that stays within the day. *)
Lemma Date_parse_inv (s : string) (t : Z) :
  Date_parse s = Some t ->
  exists y m d r,
    field 0 4 s = Some y /\ field 5 2 s = Some m /\ field 8 2 s = Some d
    /\ substring 4 1 s = "-" /\ substring 7 1 s = "-"
    /\ 1 <= m <= 12 /\ 1 <= d <= days_in_month y m
    /\ t = days_from_civil y m d * 86400000 + r
    /\ 0 <= r < 86400000.
Proof.
  unfold Date_parse, in_range.
  destruct (field 0 4 s) as [y|]; [|discriminate].
  destruct (field 5 2 s) as [m|]; [|discriminate].
  destruct (field 8 2 s) as [d|]; [|discriminate].
  destruct (String.eqb_spec (substring 4 1 s) "-") as [S4|]; [|discriminate].
  destruct (String.eqb_spec (substring 7 1 s) "-") as [S7|]; [|discriminate].
  cbn [andb].
  destruct (Z.leb_spec 1 m); [|discriminate].
  destruct (Z.leb_spec m 12); [|discriminate].
  destruct (Z.leb_spec 1 d); [|discriminate].
  destruct (Z.leb_spec d (days_in_month y m)); [|discriminate].
  cbn [andb]. intros Hp.
  exists y, m, d.
  assert (G : exists r, t = days_from_civil y m d * 86400000 + r
                        /\ 0 <= r < 86400000).
  { destruct (String.length s =? 10)%nat.
    - injection Hp as <-. exists 0. lia.
    - destruct (field 11 2 s) as [hh|]; [|discriminate].
      destruct (field 14 2 s) as [mi|]; [|discriminate].
      destruct (field 17 2 s) as [ss|]; [|discriminate].
      destruct (String.eqb (substring 10 1 s) "T"); [|discriminate].
      destruct (String.eqb (substring 13 1 s) ":"); [|discriminate].
      destruct (String.eqb (substring 16 1 s) ":"); [|discriminate].
      cbn [andb] in Hp.
      destruct (Z.leb_spec 0 hh); [|discriminate].
      destruct (Z.leb_spec hh 23); [|discriminate].
      destruct (Z.leb_spec 0 mi); [|discriminate].
      destruct (Z.leb_spec mi 59); [|discriminate].
      destruct (Z.leb_spec 0 ss); [|discriminate].
      destruct (Z.leb_spec ss 59); [|discriminate].
      cbn [andb] in Hp.
      destruct ((String.length s =? 20)%nat
                && String.eqb (substring 19 1 s) "Z").
      + injection Hp as <-.
        exists (hh * 3600000 + mi * 60000 + ss * 1000). lia.
      + destruct (field 20 3 s) as [ms|] eqn:F; [|discriminate].
        apply field_bounds in F. change (10 ^ Z.of_nat 3) with 1000 in F.
        destruct ((String.length s =? 24)%nat
                  && String.eqb (substring 19 1 s) "."
                  && String.eqb (substring 23 1 s) "Z"); [|discriminate].
        injection Hp as <-.
        exists (hh * 3600000 + mi * 60000 + ss * 1000 + ms). lia. }
  destruct G as (r & E & R). exists r. repeat split; try assumption; lia.
Qed.

(** The date part of what [toISOString] prints for a parsed date is the
    date part of the text that was parsed. *)
Lemma toISOString_date (s : string) (t : Z) :
  Date_parse s = Some t ->
  exists iso,
    toISOString (Some t) = Some iso
    /\ before_first "T" iso = substring 0 10 s.
Proof.
  intros H.
  destruct (Date_parse_inv s t H)
    as (y & m & d & r & Fy & Fm & Fd & S4 & S7 & Hm & Hd & -> & Hr).
  unfold toISOString.
  replace ((days_from_civil y m d * 86400000 + r) / 86400000)
    with (days_from_civil y m d)
    by (rewrite Z.div_add_l, (Z.div_small r) by lia; lia).
  rewrite (civil_round_trip y m d Hm Hd).
  eexists. split; [reflexivity|].
  destruct (field_print 0 4 s y Fy ltac:(lia)) as (-> & Ay & _).
  destruct (field_print 5 2 s m Fm ltac:(lia)) as (-> & Am & _).
  destruct (field_print 8 2 s d Fd ltac:(lia)) as (-> & Ad & _).
  rewrite (before_first_append "T" _ _ Ay).
  change ("-" ++ ?x) with (String "-" x). cbn [before_first Ascii.eqb Bool.eqb].
  rewrite (before_first_append "T" _ _ Am).
  change ("-" ++ ?x) with (String "-" x). cbn [before_first Ascii.eqb Bool.eqb].
  rewrite (before_first_append "T" _ _ Ad).
  change (before_first "T" ("T" ++ ?x)) with EmptyString.
  rewrite append_empty_r.
  change 10%nat with (4 + (1 + (2 + (1 + 2))))%nat.
  rewrite !substring_split. cbn [Nat.add]. now rewrite S4, S7.
Qed.


